(** * WebScraper-Demo: the extraction core of [scraper.py]

    A shallow embedding of the staff-directory scraper: the name splitter
    ([parse_name_and_honorific]), the card extractor ([extract_people_data]),
    the category link finder ([find_category_links]), the page fetcher with
    its scripted-browser fallback ([fetch_page]), the crawl orchestrator
    ([main]) and the JSON persisted form ([save_to_json] / [load_data]).

    Python [str] values are modelled as [string]: sequences of code points
    below 256.  The parsed page (a BeautifulSoup tree) is modelled as a
    forest of text and element nodes, searched in document order. *)

From Stdlib Require Import String Ascii List Bool Arith Lia.
Import ListNotations.
Set Warnings "-register-all".
Open Scope list_scope.
Open Scope string_scope.

(** ** Python string operations *)

Module PyStr.

(** [str.isspace] on one code point below 256: TAB..CR, FS..US, SPACE,
    NEL (0x85) and NBSP (0xA0). *)
Definition is_space (c : ascii) : bool :=
  let n := nat_of_ascii c in
  ((9 <=? n) && (n <=? 13) || (28 <=? n) && (n <=? 32)
   || (n =? 133) || (n =? 160))%nat.

(** [s.lstrip()] *)
Fixpoint lstrip (s : string) : string :=
  match s with
  | EmptyString => EmptyString
  | String c r => if is_space c then lstrip r else s
  end.

(** [s.rstrip()] *)
Fixpoint rstrip (s : string) : string :=
  match s with
  | EmptyString => EmptyString
  | String c r =>
      match rstrip r with
      | EmptyString => if is_space c then EmptyString else String c EmptyString
      | r' => String c r'
      end
  end.

(** [s.strip()] *)
Definition strip (s : string) : string := rstrip (lstrip s).

(** [s.rstrip(ch)] for a one-character set [ch]. *)
Fixpoint rstrip_char (ch : ascii) (s : string) : string :=
  match s with
  | EmptyString => EmptyString
  | String c r =>
      match rstrip_char ch r with
      | EmptyString => if Ascii.eqb c ch then EmptyString else String c EmptyString
      | r' => String c r'
      end
  end.

(** [s.split()]: the maximal runs of non-whitespace characters. *)
Fixpoint split (s : string) : list string :=
  match s with
  | EmptyString => []
  | String c r =>
      if is_space c then split r
      else match r with
           | EmptyString => [String c EmptyString]
           | String d _ =>
               if is_space d then String c EmptyString :: split r
               else match split r with
                    | w :: ws => String c w :: ws
                    | [] => [String c EmptyString]
                    end
           end
  end.

(** [sep.join(l)] *)
Fixpoint join (sep : string) (l : list string) : string :=
  match l with
  | [] => EmptyString
  | [w] => w
  | w :: ws => w ++ sep ++ join sep ws
  end.

(** [s.startswith(p)] *)
Fixpoint startswith (s p : string) : bool :=
  match p with
  | EmptyString => true
  | String a p' =>
      match s with
      | EmptyString => false
      | String b s' => Ascii.eqb a b && startswith s' p'
      end
  end.

(** [s[n:]] *)
Fixpoint slice_from (n : nat) (s : string) : string :=
  match n, s with
  | O, _ => s
  | S _, EmptyString => EmptyString
  | S n', String _ r => slice_from n' r
  end.

(** Truth value of a [str]: non-empty. *)
Definition truthy (s : string) : bool :=
  match s with EmptyString => false | _ => true end.

(** [x in l] for a list of strings. *)
Definition mem (x : string) (l : list string) : bool :=
  existsb (String.eqb x) l.

End PyStr.

(** ** The name splitter *)

(** The list literal of [parse_name_and_honorific], in source order. *)
Definition honorifics : list string :=
  ["Prof"; "A/Prof"; "Assoc Prof"; "Dr"; "Mr"; "Mrs"; "Ms"; "Miss"].

(** The [for honorific in honorifics] loop over the stripped name: the first
    prefix [h] with [full_name.startswith(h + ' ')] wins. *)
Fixpoint match_honorific (hs : list string) (full_name : string)
  : option (string * string) :=
  match hs with
  | [] => None
  | honorific :: rest =>
      if PyStr.startswith full_name (honorific ++ " ")
      then Some (PyStr.strip (PyStr.slice_from (String.length honorific) full_name),
                 honorific)
      else match_honorific rest full_name
  end.

(** [parse_name_and_honorific(full_name)], returning [(name, honorific)]. *)
Definition parse_name_and_honorific (full_name : string) : string * string :=
  let full_name := PyStr.strip full_name in
  match match_honorific honorifics full_name with
  | Some r => r
  | None => (full_name, "")
  end.

(** ** The parsed page *)

(** A BeautifulSoup tree: [Text] is a NavigableString, [Elem] a Tag with its
    name, its attributes and its contents in order. *)
Inductive node : Type :=
| Text (s : string)
| Elem (name : string) (attrs : list (string * string)) (contents : list node).

(** The parsed page is the contents of the document root. *)
Definition soup := list node.

Module Soup.

(** A node followed by everything below it, in document (parse) order. *)
Fixpoint preorder (n : node) : list node :=
  n :: match n with
       | Text _ => []
       | Elem _ _ cs => flat_map preorder cs
       end.

(** [tag.descendants] *)
Definition descendants (n : node) : list node :=
  match n with
  | Text _ => []
  | Elem _ _ cs => flat_map preorder cs
  end.

(** Every node of the page in document order. *)
Definition document (s : soup) : list node := flat_map preorder s.

(** An element of the page together with [.previous_elements]: the nodes
    parsed before it, nearest first. *)
Record located : Type := { previous_elements : list node; here : node }.

Fixpoint locate (before : list node) (doc : list node) : list located :=
  match doc with
  | [] => []
  | n :: rest =>
      {| previous_elements := before; here := n |} :: locate (n :: before) rest
  end.

(** [tag.get(key)] *)
Fixpoint lookup (key : string) (attrs : list (string * string)) : option string :=
  match attrs with
  | [] => None
  | (k, v) :: rest => if String.eqb k key then Some v else lookup key rest
  end.

Definition get (n : node) (key : string) : option string :=
  match n with
  | Text _ => None
  | Elem _ attrs _ => lookup key attrs
  end.

(** [tag.get(key, default)] *)
Definition get_default (n : node) (key default : string) : string :=
  match get n key with Some v => v | None => default end.

(** Filter on the tag name, as the first argument of [find] / [find_all]. *)
Definition is_tag (name : string) (n : node) : bool :=
  match n with
  | Text _ => false
  | Elem nm _ _ => String.eqb nm name
  end.

(** Filter [class_=c]: [c] is one of the whitespace-separated classes. *)
Definition has_class (c : string) (n : node) : bool :=
  match get n "class" with
  | Some v => PyStr.mem c (PyStr.split v)
  | None => false
  end.

(** Filter [key=True]: the attribute is present. *)
Definition has_attr (key : string) (n : node) : bool :=
  match get n key with Some _ => true | None => false end.

(** [soup.find_all(...)], each result with its position in the page. *)
Definition find_all (s : soup) (p : node -> bool) : list located :=
  filter (fun e => p (here e)) (locate [] (document s)).

(** [tag.find_all(...)] *)
Definition find_all_in (n : node) (p : node -> bool) : list node :=
  filter p (descendants n).

(** [tag.find(...)]: the first matching descendant. *)
Definition find (n : node) (p : node -> bool) : option node :=
  List.find p (descendants n).

(** [tag.find_previous(...)]: the nearest match among the nodes before. *)
Definition find_previous (e : located) (p : node -> bool) : option node :=
  List.find p (previous_elements e).

(** The strings below a node, in document order. *)
Fixpoint strings (n : node) : list string :=
  match n with
  | Text s => [s]
  | Elem _ _ cs => flat_map strings cs
  end.

(** [tag.get_text()] *)
Definition get_text (n : node) : string := PyStr.join "" (strings n).

(** [tag.get_text(strip=True)]: every string stripped, empty ones dropped. *)
Definition get_text_strip (n : node) : string :=
  PyStr.join "" (filter PyStr.truthy (map PyStr.strip (strings n))).

End Soup.

(** ** The card extractor *)

(** One directory entry: the keys of [person_data]. *)
Record person : Type := {
  name : string;
  honorific : string;
  profile_url : string;
  title : string;
  category : string
}.

(** The filters of the searches below. *)
Definition is_card (n : node) : bool :=            (* 'div', class_='card' *)
  Soup.is_tag "div" n && Soup.has_class "card" n.
Definition is_section_header (n : node) : bool :=  (* 'h2', id=True *)
  Soup.is_tag "h2" n && Soup.has_attr "id" n.
Definition is_card_header (n : node) : bool :=     (* 'h3', class_='card__header' *)
  Soup.is_tag "h3" n && Soup.has_class "card__header" n.
Definition is_sub_heading (n : node) : bool :=     (* 'div', class_='card__sub-heading' *)
  Soup.is_tag "div" n && Soup.has_class "card__sub-heading" n.
Definition is_pathfinder (n : node) : bool :=      (* 'ul', class_='pathfinder-3' *)
  Soup.is_tag "ul" n && Soup.has_class "pathfinder-3" n.
Definition is_link_with_href (n : node) : bool :=  (* 'a', href=True *)
  Soup.is_tag "a" n && Soup.has_attr "href" n.

(** Line 125: the text of a section header that names a category. *)
Definition qualifying (section_text : string) : bool :=
  PyStr.truthy section_text
  && negb (PyStr.mem section_text ["Featured content"; "Site footer"]).

(** Lines 142-148: the profile URL of a name link. *)
Definition profile_url_of (href : string) : string :=
  if PyStr.startswith href "http" then href
  else if PyStr.startswith href "/" then "https://cis.unimelb.edu.au" ++ href
  else "https://cis.unimelb.edu.au/" ++ href.

(** Lines 121-126: the section header before the card may replace the
    running category. *)
Definition update_category (card : Soup.located) (current_category : string)
  : string :=
  match Soup.find_previous card is_section_header with
  | Some prev_section =>
      let section_text := Soup.get_text_strip prev_section in
      if qualifying section_text then section_text else current_category
  | None => current_category
  end.

(** Lines 128-166: the record of one card, [None] where the loop
    [continue]s. *)
Definition card_person (card : node) (current_category : string)
  : option person :=
  match Soup.find card is_card_header with
  | Some header =>
      let '(name, honorific, profile_url) :=
        match Soup.find header (Soup.is_tag "a") with
        | Some name_link =>
            let full_name := PyStr.join " " (PyStr.split (Soup.get_text name_link)) in
            let (name, honorific) := parse_name_and_honorific full_name in
            let href := Soup.get_default name_link "href" "" in
            (name, honorific, profile_url_of href)
        | None =>
            let full_name := Soup.get_text_strip header in
            let (name, honorific) := parse_name_and_honorific full_name in
            (name, honorific, "N/A")
        end in
      let title :=
        match Soup.find card is_sub_heading with
        | Some sub_heading => Soup.get_text_strip sub_heading
        | None => "N/A"
        end in
      Some {| name := name; honorific := honorific; profile_url := profile_url;
              title := title; category := current_category |}
  | None => None
  end.

(** The [for card in cards] loop, threading [current_category] and
    [people]. *)
Fixpoint extract_loop (cards : list Soup.located) (current_category : string)
  (people : list person) : list person :=
  match cards with
  | [] => people
  | card :: rest =>
      let current_category := update_category card current_category in
      match card_person (Soup.here card) current_category with
      | Some person_data => extract_loop rest current_category (people ++ [person_data])
      | None => extract_loop rest current_category people
      end
  end.

(** [default_category or 'General'] *)
Definition initial_category (default_category : option string) : string :=
  match default_category with
  | Some d => if PyStr.truthy d then d else "General"
  | None => "General"
  end.

(** [extract_people_data(soup, default_category)] *)
Definition extract_people_data (s : soup) (default_category : option string)
  : list person :=
  let cards := Soup.find_all s is_card in
  extract_loop cards (initial_category default_category) [].

(** ** The category link finder *)

(** Lines 190-195: the absolute URL of a category link. *)
Definition category_url_of (base_url href : string) : string :=
  if PyStr.startswith href "/" then PyStr.rstrip_char "/" base_url ++ href
  else if PyStr.startswith href "http" then href
  else PyStr.rstrip_char "/" base_url ++ "/" ++ href.

(** [find_category_links(soup, base_url)] *)
Definition find_category_links (s : soup) (base_url : string)
  : list (string * string) :=
  let pathfinders := Soup.find_all s is_pathfinder in
  flat_map (fun pathfinder =>
    let links := Soup.find_all_in (Soup.here pathfinder) is_link_with_href in
    flat_map (fun link =>
      match Soup.find link (Soup.is_tag "h3") with
      | Some h3 =>
          let category_name := Soup.get_text_strip h3 in
          let href := Soup.get_default link "href" "" in
          [(category_name, category_url_of base_url href)]
      | None => []
      end) links) pathfinders.

(** ** The JSON persisted form *)

Module Json.

(** The values [json.dump] writes and [json.load] reads back here: strings,
    arrays and objects (a [dict], keys in insertion order). *)
Inductive value : Type :=
| JString (s : string)
| JArray (items : list value)
| JObject (members : list (string * value)).

Definition quote : ascii := Eval cbv in ascii_of_nat 34.
Definition backslash : ascii := Eval cbv in ascii_of_nat 92.
Definition newline : ascii := Eval cbv in ascii_of_nat 10.

(** *** Writing: [json.dump(data, f, indent=2, ensure_ascii=False)] *)

Definition hex_digit (d : nat) : ascii :=
  match get d "0123456789abcdef" with Some c => c | None => "0"%char end.

(** One character of a string literal: the quote, the backslash and the
    control characters are escaped, everything else is written as it is. *)
Definition escape_char (c : ascii) : string :=
  let n := nat_of_ascii c in
  if (n =? 34)%nat then String backslash (String quote "")
  else if (n =? 92)%nat then "\\"
  else if (n =? 10)%nat then "\n"
  else if (n =? 13)%nat then "\r"
  else if (n =? 9)%nat then "\t"
  else if (n =? 8)%nat then "\b"
  else if (n =? 12)%nat then "\f"
  else if (n <? 32)%nat
       then "\u00" ++ String (hex_digit (n / 16)) (String (hex_digit (n mod 16)) "")
  else String c "".

Fixpoint escape (s : string) : string :=
  match s with
  | EmptyString => EmptyString
  | String c r => escape_char c ++ escape r
  end.

Definition encode_string (s : string) : string :=
  String quote (escape s ++ String quote "").

Fixpoint spaces (n : nat) : string :=
  match n with O => "" | S n' => String " " (spaces n') end.

(** A line break followed by the indentation of [level]. *)
Definition newline_indent (level : nat) : string :=
  String newline (spaces (2 * level)).

Fixpoint encode (level : nat) (v : value) : string :=
  match v with
  | JString s => encode_string s
  | JArray [] => "[]"
  | JArray items =>
      "[" ++ newline_indent (S level)
      ++ PyStr.join ("," ++ newline_indent (S level)) (map (encode (S level)) items)
      ++ newline_indent level ++ "]"
  | JObject [] => "{}"
  | JObject members =>
      "{" ++ newline_indent (S level)
      ++ PyStr.join ("," ++ newline_indent (S level))
           (map (fun kv => encode_string (fst kv) ++ ": " ++ encode (S level) (snd kv))
                members)
      ++ newline_indent level ++ "}"
  end.

Definition dumps (v : value) : string := encode 0 v.

(** *** Reading: [json.load(f)] *)

Definition is_ws (c : ascii) : bool :=
  let n := nat_of_ascii c in
  ((n =? 32) || (n =? 9) || (n =? 10) || (n =? 13))%nat.

Fixpoint skip_ws (s : string) : string :=
  match s with
  | EmptyString => EmptyString
  | String c r => if is_ws c then skip_ws r else s
  end.

Definition hex_value (c : ascii) : option nat :=
  let n := nat_of_ascii c in
  if ((48 <=? n) && (n <=? 57))%nat then Some (n - 48)
  else if ((97 <=? n) && (n <=? 102))%nat then Some (n - 87)
  else if ((65 <=? n) && (n <=? 70))%nat then Some (n - 55)
  else None.

(** The code point of [\uXXXX]; code points from 256 on are outside the
    modelled strings. *)
Definition unicode_escape (h1 h2 h3 h4 : ascii) : option ascii :=
  match hex_value h1, hex_value h2, hex_value h3, hex_value h4 with
  | Some a, Some b, Some c, Some d =>
      let n := ((a * 16 + b) * 16 + c) * 16 + d in
      if (n <? 256)%nat then Some (ascii_of_nat n) else None
  | _, _, _, _ => None
  end.

(** The character of a two-character escape. *)
Definition unescape (e : ascii) : option ascii :=
  let n := nat_of_ascii e in
  if (n =? 34)%nat then Some quote
  else if (n =? 92)%nat then Some backslash
  else if (n =? 47)%nat then Some "/"%char
  else if (n =? 98)%nat then Some (ascii_of_nat 8)
  else if (n =? 102)%nat then Some (ascii_of_nat 12)
  else if (n =? 110)%nat then Some (ascii_of_nat 10)
  else if (n =? 114)%nat then Some (ascii_of_nat 13)
  else if (n =? 116)%nat then Some (ascii_of_nat 9)
  else None.

Definition cons_char (c : ascii) (r : option (string * string))
  : option (string * string) :=
  match r with
  | Some (v, rest) => Some (String c v, rest)
  | None => None
  end.

(** A string literal after its opening quote: the decoded string and what
    follows the closing quote. *)
Fixpoint scan_string (s : string) : option (string * string) :=
  match s with
  | EmptyString => None
  | String c r =>
      if Ascii.eqb c quote then Some (EmptyString, r)
      else if Ascii.eqb c backslash then
        match r with
        | EmptyString => None
        | String e r1 =>
            if Ascii.eqb e "u" then
              match r1 with
              | String h1 (String h2 (String h3 (String h4 r2))) =>
                  match unicode_escape h1 h2 h3 h4 with
                  | Some ch => cons_char ch (scan_string r2)
                  | None => None
                  end
              | _ => None
              end
            else
              match unescape e with
              | Some ch => cons_char ch (scan_string r1)
              | None => None
              end
        end
      else if (nat_of_ascii c <? 32)%nat then None
      else cons_char c (scan_string r)
  end.

(** [d[k] = v] on a dict kept in insertion order. *)
Fixpoint dict_set {V : Type} (d : list (string * V)) (k : string) (v : V)
  : list (string * V) :=
  match d with
  | [] => [(k, v)]
  | (k', v') :: r =>
      if String.eqb k' k then (k', v) :: r else (k', v') :: dict_set r k v
  end.

(** The recursive-descent reader; [fuel] bounds the number of calls. *)
Fixpoint parse_value (fuel : nat) (s : string) : option (value * string) :=
  match fuel with
  | O => None
  | S fuel =>
      match s with
      | EmptyString => None
      | String c r =>
          if Ascii.eqb c quote then
            match scan_string r with
            | Some (v, rest) => Some (JString v, rest)
            | None => None
            end
          else if Ascii.eqb c "[" then
            match skip_ws r with
            | String "]" rest => Some (JArray [], rest)
            | r1 =>
                match parse_items fuel r1 [] with
                | Some (items, rest) => Some (JArray items, rest)
                | None => None
                end
            end
          else if Ascii.eqb c "{" then
            match skip_ws r with
            | String "}" rest => Some (JObject [], rest)
            | r1 =>
                match parse_members fuel r1 [] with
                | Some (members, rest) => Some (JObject members, rest)
                | None => None
                end
            end
          else None
      end
  end

with parse_items (fuel : nat) (s : string) (values : list value)
  : option (list value * string) :=
  match fuel with
  | O => None
  | S fuel =>
      match parse_value fuel s with
      | Some (v, rest) =>
          let values := (values ++ [v])%list in
          match skip_ws rest with
          | String "]" rest1 => Some (values, rest1)
          | String "," rest1 => parse_items fuel (skip_ws rest1) values
          | _ => None
          end
      | None => None
      end
  end

with parse_members (fuel : nat) (s : string) (pairs : list (string * value))
  : option (list (string * value) * string) :=
  match fuel with
  | O => None
  | S fuel =>
      match s with
      | String c r =>
          if Ascii.eqb c quote then
            match scan_string r with
            | Some (key, rest) =>
                match skip_ws rest with
                | String ":" rest1 =>
                    match parse_value fuel (skip_ws rest1) with
                    | Some (v, rest2) =>
                        let pairs := dict_set pairs key v in
                        match skip_ws rest2 with
                        | String "}" rest3 => Some (pairs, rest3)
                        | String "," rest3 => parse_members fuel (skip_ws rest3) pairs
                        | _ => None
                        end
                    | None => None
                    end
                | _ => None
                end
            | None => None
            end
          else None
      | EmptyString => None
      end
  end.

(** [json.loads(text)]: one value, surrounded by optional whitespace and
    nothing else. *)
Definition loads (text : string) : option value :=
  match parse_value (S (String.length text)) (skip_ws text) with
  | Some (v, rest) =>
      match skip_ws rest with
      | EmptyString => Some v
      | _ => None
      end
  | None => None
  end.

End Json.

(** [person_data] as the dict it is: its keys in the order of assignment. *)
Definition to_dict (p : person) : list (string * string) :=
  [("name", name p); ("honorific", honorific p); ("profile_url", profile_url p);
   ("title", title p); ("category", category p)].

Definition json_of_people (data : list person) : Json.value :=
  Json.JArray (map (fun p => Json.JObject (map (fun kv => (fst kv, Json.JString (snd kv))) (to_dict p))) data).

(** [save_to_json(data)]: the text written to [people_data.json]. *)
Definition save_to_json (data : list person) : string :=
  Json.dumps (json_of_people data).

(** The rows of [pd.DataFrame(data)] for a list of dicts of strings. *)
Fixpoint row_of_members (members : list (string * Json.value))
  : option (list (string * string)) :=
  match members with
  | [] => Some []
  | (k, Json.JString v) :: rest =>
      match row_of_members rest with
      | Some row => Some ((k, v) :: row)
      | None => None
      end
  | _ => None
  end.

Fixpoint rows_of_items (items : list Json.value)
  : option (list (list (string * string))) :=
  match items with
  | [] => Some []
  | Json.JObject members :: rest =>
      match row_of_members members, rows_of_items rest with
      | Some row, Some rows => Some (row :: rows)
      | _, _ => None
      end
  | _ => None
  end.

(** [load_data()] on the text of [people_data.json]: the rows of the
    dataframe, [None] where the file is no array of objects of strings.
    This is the body of the function; the memoization of [st.cache_data]
    around it is not modelled. *)
Definition load_data (json_file : string) : option (list (list (string * string))) :=
  match Json.loads json_file with
  | Some (Json.JArray items) => rows_of_items items
  | _ => None
  end.

(** ** The page fetcher and the crawl orchestrator *)

(** What a run does to the outside world, in order. *)
Inductive event : Type :=
| HttpGet (url : string)                        (* fetch_page_requests *)
| BrowserGet (url : string)                     (* fetch_page_selenium *)
| Sleep (seconds : nat)
| WriteHtml (filename : string) (page : soup)
| WriteJson (filename : string) (text : string) (* save_to_json *)
| WriteCsv (filename : string) (rows : list person).

Definition trace := list event.

Section Crawl.

(** What the two fetch strategies raise when they fail. *)
Variable failure : Type.

Inductive exn : Type :=
| ImportError (msg : string)
| FetchFailure (f : failure).

Inductive outcome (A : Type) : Type :=
| Ok (a : A)
| Raise (e : exn).
Arguments Ok {A} a.
Arguments Raise {A} e.

(** A computation: it reads the events so far, returns or raises, and
    leaves the events extended (also when it raises). *)
Definition io (A : Type) : Type := trace -> outcome A * trace.

Definition ret {A} (a : A) : io A := fun t => (Ok a, t).
Definition raise {A} (e : exn) : io A := fun t => (Raise e, t).
Definition bind {A B} (m : io A) (k : A -> io B) : io B :=
  fun t => match m t with
           | (Ok a, t') => k a t'
           | (Raise e, t') => (Raise e, t')
           end.
(** [try: m  except Exception as e: handler(e)] *)
Definition try_except {A} (m : io A) (handler : exn -> io A) : io A :=
  fun t => match m t with
           | (Ok a, t') => (Ok a, t')
           | (Raise e, t') => handler e t'
           end.
Definition emit (e : event) : io unit := fun t => (Ok tt, (t ++ [e])%list).

Notation "x <- m ;; k" := (bind m (fun x => k))
  (at level 61, m at next level, right associativity).
Notation "m ;;; k" := (bind m (fun _ => k))
  (at level 61, right associativity).

(** The module constant set by the guarded import of selenium. *)
Variable SELENIUM_AVAILABLE : bool.

(** The two external collaborators: the page a plain GET and a headless
    browser give for a URL, after the events so far. *)
Variable requests_get : trace -> string -> failure + soup.
Variable browser_get : trace -> string -> failure + soup.

Definition of_result (r : failure + soup) : outcome soup :=
  match r with inl f => Raise (FetchFailure f) | inr page => Ok page end.

Definition selenium_missing : exn :=
  ImportError "Selenium not installed. Install with: pip install selenium".

(** [fetch_page_requests(url)] *)
Definition fetch_page_requests (url : string) : io soup :=
  fun t => (of_result (requests_get t url), (t ++ [HttpGet url])%list).

(** [fetch_page_selenium(url)] *)
Definition fetch_page_selenium (url : string) : io soup :=
  if negb SELENIUM_AVAILABLE then raise selenium_missing
  else fun t => (of_result (browser_get t url), (t ++ [BrowserGet url])%list).

(** [fetch_page(url, use_selenium)] *)
Definition fetch_page (url : string) (use_selenium : bool) : io soup :=
  if use_selenium then
    if negb SELENIUM_AVAILABLE then raise selenium_missing
    else fetch_page_selenium url
  else
    try_except (fetch_page_requests url)
      (fun e => if SELENIUM_AVAILABLE then fetch_page_selenium url else raise e).

Definition base_url : string := "https://cis.unimelb.edu.au/people".

(** Lines 231-233: the strategy [main] really uses. *)
Definition effective_selenium (use_selenium : bool) : bool :=
  if use_selenium && negb SELENIUM_AVAILABLE then false else use_selenium.

(** Lines 230-248 of [main]: the landing page. *)
Definition fetch_main_page (use_selenium save_html : bool) : io soup :=
  let use_selenium := effective_selenium use_selenium in
  try_except
    (page <- fetch_page base_url use_selenium ;;
     (if save_html then emit (WriteHtml "page_source.html" page) else ret tt) ;;;
     ret page)
    (fun e =>
       if negb use_selenium && SELENIUM_AVAILABLE
       then fetch_page base_url true
       else raise e).

(** Lines 264-272: one category sub-page; a failure leaves [all_people]
    as it was. *)
Definition scrape_category (use_selenium : bool) (all_people : list person)
  (link : string * string) : io (list person) :=
  let (category_name, category_url) := link in
  try_except
    (category_soup <- fetch_page category_url use_selenium ;;
     let category_people := extract_people_data category_soup (Some category_name) in
     let all_people := (all_people ++ category_people)%list in
     emit (Sleep 1) ;;;
     ret all_people)
    (fun _ => ret all_people).

(** Lines 262-272: the [for category_name, category_url in category_links]
    loop. *)
Fixpoint scrape_subpages_loop (use_selenium : bool)
  (category_links : list (string * string)) (all_people : list person)
  : io (list person) :=
  match category_links with
  | [] => ret all_people
  | link :: rest =>
      all_people <- scrape_category use_selenium all_people link ;;
      scrape_subpages_loop use_selenium rest all_people
  end.

(** Lines 276-293: persist a non-empty result.  The two writes are taken
    to succeed: an error of the file system is not modelled. *)
Definition persist (all_people : list person) : io unit :=
  match all_people with
  | [] => ret tt
  | _ =>
      emit (WriteJson "people_data.json" (save_to_json all_people)) ;;;
      emit (WriteCsv "people_data.csv" all_people)
  end.

(** Lines 250-293: everything after the landing page is fetched. *)
Definition crawl_from (page : soup) (use_selenium scrape_subpages : bool)
  : io (list person) :=
  let main_people := extract_people_data page None in
  let all_people := ([] ++ main_people)%list in
  all_people <-
    (if scrape_subpages
     then scrape_subpages_loop use_selenium
            (find_category_links page "https://cis.unimelb.edu.au") all_people
     else ret all_people) ;;
  persist all_people ;;;
  ret all_people.

(** [main(use_selenium, save_html, scrape_subpages)] *)
Definition main (use_selenium save_html scrape_subpages : bool)
  : io (list person) :=
  page <- fetch_main_page use_selenium save_html ;;
  crawl_from page (effective_selenium use_selenium) scrape_subpages.

End Crawl.

Arguments Ok {failure A} a.
Arguments Raise {failure A} e.
Arguments ImportError {failure} msg.
Arguments FetchFailure {failure} f.

(** ** Notions used to state the properties *)

Module Notions.

(** No character of the string is whitespace. *)
Fixpoint no_space (s : string) : bool :=
  match s with
  | EmptyString => true
  | String c r => negb (PyStr.is_space c) && no_space r
  end.

(** Every character of the string is whitespace. *)
Fixpoint blank (s : string) : bool :=
  match s with
  | EmptyString => true
  | String c r => PyStr.is_space c && blank r
  end.

(** A word of [split]: non-empty, without whitespace. *)
Definition word (w : string) : Prop := w <> "" /\ no_space w = true.

(** A non-empty string that [strip] leaves alone. *)
Definition solid (w : string) : Prop := w <> "" /\ PyStr.strip w = w.

(** The card has the heading its name is read from. *)
Definition has_header (card : Soup.located) : bool :=
  match Soup.find (Soup.here card) is_card_header with
  | Some _ => true
  | None => false
  end.

(** The display name the extractor reads from a card: the text of the first
    link of its heading, whitespace-normalized, or the stripped text of the
    heading when it has no link. *)
Definition full_name_of (card : node) : option string :=
  match Soup.find card is_card_header with
  | Some header =>
      Some match Soup.find header (Soup.is_tag "a") with
           | Some name_link => PyStr.join " " (PyStr.split (Soup.get_text name_link))
           | None => Soup.get_text_strip header
           end
  | None => None
  end.

(** The cards of a page, each with the category that runs when it is
    reached. *)
Fixpoint running (cards : list Soup.located) (current_category : string)
  : list (Soup.located * string) :=
  match cards with
  | [] => []
  | card :: rest =>
      let current_category := update_category card current_category in
      (card, current_category) :: running rest current_category
  end.

(** The category that runs after a list of cards has been scanned. *)
Definition category_after (cards : list Soup.located) (cat : string) : string :=
  fold_left (fun cat card => update_category card cat) cards cat.

(** The records of cards whose categories are given. *)
Definition records (l : list (Soup.located * string)) : list person :=
  flat_map (fun cc => match card_person (Soup.here (fst cc)) (snd cc) with
                      | Some p => [p]
                      | None => []
                      end) l.

(** The category the section header before a card gives it, if any. *)
Definition section_category (card : Soup.located) : option string :=
  match Soup.find_previous card is_section_header with
  | Some prev_section =>
      let section_text := Soup.get_text_strip prev_section in
      if qualifying section_text then Some section_text else None
  | None => None
  end.

(** An absolute URI reference in the sense of RFC 3986: it begins with a
    scheme, a letter followed by letters, digits, [+], [-] or [.], and a
    colon. *)
Definition is_alpha (c : ascii) : bool :=
  let n := nat_of_ascii c in
  ((65 <=? n) && (n <=? 90) || (97 <=? n) && (n <=? 122))%nat.

Definition is_scheme_char (c : ascii) : bool :=
  let n := nat_of_ascii c in
  (is_alpha c || (48 <=? n) && (n <=? 57) || (n =? 43) || (n =? 45) || (n =? 46))%nat.

Fixpoint scheme_rest (s : string) : bool :=
  match s with
  | EmptyString => false
  | String c r => if Ascii.eqb c ":" then true else is_scheme_char c && scheme_rest r
  end.

Definition begins_with_scheme (href : string) : bool :=
  match href with
  | EmptyString => false
  | String c r => is_alpha c && scheme_rest r
  end.

(** The number of scripted-browser fetches among the events of a run. *)
Definition browser_fetches (t : trace) : nat :=
  List.length (filter (fun e => match e with BrowserGet _ => true | _ => false end) t).

(** A dict of strings, member by member, as [json.dump] writes it and as
    [json.load] builds it. *)
Definition member_of (kv : string * string) : string * Json.value :=
  (fst kv, Json.JString (snd kv)).

Definition encode_pair (kv : string * string) : string :=
  Json.encode_string (fst kv) ++ ": " ++ Json.encode_string (snd kv).

Definition set_pair (d : list (string * Json.value)) (kv : string * string)
  : list (string * Json.value) :=
  Json.dict_set d (fst kv) (Json.JString (snd kv)).

(** A person as a JSON object, as in [json_of_people]. *)
Definition object_of (p : person) : Json.value :=
  Json.JObject (map member_of (to_dict p)).

End Notions.

(** ** Sample pages and collaborators *)

Module Samples.

Definition heading (id text : string) : node :=
  Elem "h2" [("id", id)] [Text text].

Definition card (href text : string) : node :=
  Elem "div" [("class", "card")]
    [Elem "h3" [("class", "card__header")] [Elem "a" [("href", href)] [Text text]];
     Elem "div" [("class", "card__sub-heading")] [Text "Lecturer"]].

(** Header, two cards, header, a card, the footer header, a card. *)
Definition sectioned : soup :=
  [heading "academic" "Academic staff"; card "/a" "Prof A"; card "/b" "Dr B";
   heading "professional" "Professional staff"; card "/c" "Ms C";
   heading "footer" "Site footer"; card "/d" "Mr D"].

(** The cards of [sectioned], by position. *)
Definition sectioned_card (i : nat) : Soup.located :=
  nth i (Soup.find_all sectioned is_card)
    {| Soup.previous_elements := []; Soup.here := Text "" |}.

(** A landing page with one card and two category boxes. *)
Definition landing : soup :=
  [card "/staff/jdoe" "Prof Jane Doe";
   Elem "ul" [("class", "pathfinder-3")]
     [Elem "li" [] [Elem "a" [("href", "/people/fellows")]
                      [Elem "h3" [] [Text "Research Fellows"]]];
      Elem "li" [] [Elem "a" [("href", "people/students")]
                      [Elem "h3" [] [Text "Students"]]]]].

Definition students : soup :=
  [Elem "div" [("class", "card")]
     [Elem "h3" [("class", "card__header")] [Text "Dr A Lee"]]].

(** The record of the card of [landing]. *)
Definition jane : person :=
  {| name := "Jane Doe"; honorific := "Prof";
     profile_url := "https://cis.unimelb.edu.au/staff/jdoe";
     title := "Lecturer"; category := "General" |}.

(** A site whose page of research fellows cannot be fetched. *)
Definition site (t : trace) (url : string) : string + soup :=
  if String.eqb url "https://cis.unimelb.edu.au/people" then inr landing
  else if String.eqb url "https://cis.unimelb.edu.au/people/students" then inr students
  else inl "404 Not Found".

Definition site_down (t : trace) (url : string) : string + soup :=
  inl "503 Service Unavailable".

Definition no_browser (t : trace) (url : string) : string + soup :=
  inl "no browser".

(** A browser that fails on its first use of a run and works afterwards. *)
Definition flaky_browser (t : trace) (url : string) : string + soup :=
  if (Notions.browser_fetches t =? 0)%nat then inl "challenge page" else inr landing.

End Samples.

(** ** The CSV persisted form *)

Module Csv.

Definition quote : ascii := Eval cbv in ascii_of_nat 34.
Definition cr : ascii := Eval cbv in ascii_of_nat 13.
Definition lf : ascii := Eval cbv in ascii_of_nat 10.

(** The characters that make [csv.writer] quote a field (QUOTE_MINIMAL,
    excel dialect): the delimiter, the quote character, CR and LF. *)
Definition special (c : ascii) : bool :=
  Ascii.eqb c "," || Ascii.eqb c quote || Ascii.eqb c cr || Ascii.eqb c lf.

Fixpoint needs_quoting (field : string) : bool :=
  match field with
  | EmptyString => false
  | String c r => special c || needs_quoting r
  end.

(** Inside a quoted field every quote character is doubled. *)
Fixpoint double_quotes (field : string) : string :=
  match field with
  | EmptyString => EmptyString
  | String c r =>
      if Ascii.eqb c quote then String quote (String quote (double_quotes r))
      else String c (double_quotes r)
  end.

Definition encode_field (field : string) : string :=
  if needs_quoting field
  then String quote (double_quotes field ++ String quote EmptyString)
  else field.

Definition lineterminator : string := String cr (String lf EmptyString).

(** [writer.writerow(fields)]: the fields joined by commas and ended by
    CR LF; a row made of one empty field is written as two quotes. *)
Definition encode_row (fields : list string) : string :=
  match fields with
  | [EmptyString] => String quote (String quote lineterminator)
  | _ => PyStr.join "," (map encode_field fields) ++ lineterminator
  end.

(** *** Reading the text back

    A reader for the excel dialect, as [csv.reader] reads what the writer
    above writes: fields separated by commas, rows ended by CR LF, a quoted
    field running to its closing quote with doubled quotes inside. *)

Inductive state : Type :=
| RowStart      (* before the first field of a row *)
| FieldStart    (* after a comma *)
| InField       (* inside an unquoted field *)
| InQuoted      (* inside a quoted field *)
| QuoteSeen     (* after a quote inside a quoted field *)
| AfterCR.      (* after the CR that ends a row *)

Definition snoc (s : string) (c : ascii) : string := s ++ String c EmptyString.

Fixpoint read (text : string) (st : state) (field : string) (row : list string)
  (rows : list (list string)) : option (list (list string)) :=
  match text with
  | EmptyString =>
      match st with
      | RowStart => Some rows
      | _ => None
      end
  | String c r =>
      match st with
      | RowStart | FieldStart =>
          if Ascii.eqb c quote then read r InQuoted EmptyString row rows
          else if Ascii.eqb c "," then read r FieldStart EmptyString (row ++ [EmptyString])%list rows
          else if Ascii.eqb c cr then read r AfterCR EmptyString [] (rows ++ [(row ++ [EmptyString])%list])%list
          else if Ascii.eqb c lf then None
          else read r InField (String c EmptyString) row rows
      | InField =>
          if Ascii.eqb c "," then read r FieldStart EmptyString (row ++ [field])%list rows
          else if Ascii.eqb c cr then read r AfterCR EmptyString [] (rows ++ [(row ++ [field])%list])%list
          else if Ascii.eqb c quote || Ascii.eqb c lf then None
          else read r InField (snoc field c) row rows
      | InQuoted =>
          if Ascii.eqb c quote then read r QuoteSeen field row rows
          else read r InQuoted (snoc field c) row rows
      | QuoteSeen =>
          if Ascii.eqb c quote then read r InQuoted (snoc field c) row rows
          else if Ascii.eqb c "," then read r FieldStart EmptyString (row ++ [field])%list rows
          else if Ascii.eqb c cr then read r AfterCR EmptyString [] (rows ++ [(row ++ [field])%list])%list
          else None
      | AfterCR =>
          if Ascii.eqb c lf then read r RowStart EmptyString [] rows else None
      end
  end.

Definition read_rows (text : string) : option (list (list string)) :=
  read text RowStart EmptyString [] [].

(** What the reader does after a field [f]: a comma goes on with the row,
    CR ends it. *)
Definition after_field (d : ascii) (r f : string) (row : list string)
  (rows : list (list string)) : option (list (list string)) :=
  if Ascii.eqb d ","
  then read r FieldStart EmptyString (row ++ [f])%list rows
  else read r AfterCR EmptyString [] (rows ++ [(row ++ [f])%list])%list.

End Csv.

(** Line 215: the column order of the CSV file. *)
Definition fieldnames : list string :=
  ["name"; "honorific"; "title"; "category"; "profile_url"].

(** [DictWriter._dict_to_list]: the values of a row in column order, the
    empty string for a missing key. *)
Definition dict_to_list (rowdict : list (string * string)) : list string :=
  map (fun key => match Soup.lookup key rowdict with
                  | Some v => v
                  | None => EmptyString
                  end) fieldnames.

(** [save_to_csv(data)]: the text written to [people_data.csv], [None]
    where the function returns before opening the file. *)
Definition save_to_csv (data : list person) : option string :=
  match data with
  | [] => None
  | _ =>
      Some (Csv.encode_row fieldnames
            ++ PyStr.join "" (map (fun p => Csv.encode_row (dict_to_list (to_dict p)))
                                data))
  end.

(** ** The dashboard *)

Module App.

(** [Series.unique()]: the values in order of first appearance. *)
Fixpoint unique (l : list string) : list string :=
  match l with
  | [] => []
  | x :: r => x :: filter (fun y => negb (String.eqb y x)) (unique r)
  end.

(** [sorted(l)] on strings: the sorted arrangement, by code points. *)
Fixpoint insert_sorted (x : string) (l : list string) : list string :=
  match l with
  | [] => [x]
  | y :: r => if String.leb x y then x :: l else y :: insert_sorted x r
  end.

Fixpoint sorted (l : list string) : list string :=
  match l with
  | [] => []
  | x :: r => insert_sorted x (sorted r)
  end.

(** The list is in ascending order. *)
Fixpoint is_sorted (l : list string) : bool :=
  match l with
  | [] => true
  | x :: r =>
      match r with
      | [] => true
      | y :: _ => String.leb x y && is_sorted r
      end
  end.

(** Line 49: the options of the category select box.  The dataframe is a
    list of rows with the five string columns, none missing, as
    [load_data] gives it for a file written by the scraper. *)
Definition category_options (df : list person) : list string :=
  "All" :: sorted (unique (map category df)).

(** Line 53: the options of the honorific select box. *)
Definition honorific_options (df : list person) : list string :=
  "All" :: sorted (filter PyStr.truthy (unique (map honorific df))).

Section Filters.

(** [Series.str.contains(search_term, case=False, na=False)] on one value:
    a case-insensitive regular-expression search. *)
Variable str_contains : string -> string -> bool.

(** Lines 60-71: the filtered dataframe. *)
Definition apply_filters (df : list person)
  (selected_category selected_honorific search_term : string) : list person :=
  let filtered_df := df in
  let filtered_df :=
    if negb (String.eqb selected_category "All")
    then filter (fun row => String.eqb (category row) selected_category) filtered_df
    else filtered_df in
  let filtered_df :=
    if negb (String.eqb selected_honorific "All")
    then filter (fun row => String.eqb (honorific row) selected_honorific) filtered_df
    else filtered_df in
  let filtered_df :=
    if PyStr.truthy search_term
    then filter (fun row => str_contains (name row) search_term) filtered_df
    else filtered_df in
  filtered_df.

End Filters.

(** Line 84: the metric "With Profile URLs". *)
Definition with_profile_urls (filtered_df : list person) : nat :=
  List.length (filter (fun row => negb (String.eqb (profile_url row) "N/A")) filtered_df).

(** Line 87: the metric "With Honorifics". *)
Definition with_honorifics (filtered_df : list person) : nat :=
  List.length (filter (fun row => negb (String.eqb (honorific row) "")) filtered_df).

(** Lines 113-116: the name shown in the table. *)
Definition display_name (row : person) : string :=
  if PyStr.truthy (honorific row)
  then PyStr.strip (honorific row ++ " " ++ name row)
  else name row.

(** Lines 119-120: the title shown in the table. *)
Definition display_title (row : person) : string :=
  if String.eqb (title row) "" then "N/A" else title row.

(** Lines 129-132: the profile cell is a link to the URL or the dash
    placeholder. *)
Inductive cell : Type :=
| ViewProfile (url : string)
| Placeholder.

Definition format_url (url : string) : cell :=
  if PyStr.truthy url && negb (String.eqb url "N/A")
  then ViewProfile url
  else Placeholder.

End App.

(** ** Notions used to state the properties of names *)

Module Shapes.

(** The string does not start with whitespace. *)
Definition starts_solid (s : string) : bool :=
  match s with
  | EmptyString => false
  | String c _ => negb (PyStr.is_space c)
  end.

(** Every whitespace character of the string is a single space followed
    by a character that is no whitespace. *)
Fixpoint single_spaced (s : string) : bool :=
  match s with
  | EmptyString => true
  | String c r =>
      (if PyStr.is_space c then Ascii.eqb c " " && starts_solid r else true)
      && single_spaced r
  end.

End Shapes.

(** ** Notions used to state the properties of runs *)

Module Runs.

Definition is_http_get (e : event) : bool :=
  match e with HttpGet _ => true | _ => false end.

Definition is_browser_get (e : event) : bool :=
  match e with BrowserGet _ => true | _ => false end.

(** The result files: [people_data.json] and [people_data.csv]. *)
Definition is_result_write (e : event) : bool :=
  match e with WriteJson _ _ | WriteCsv _ _ => true | _ => false end.

(** The text of the last JSON file written, if any. *)
Fixpoint last_json (t : trace) : option string :=
  match t with
  | [] => None
  | e :: r =>
      match last_json r with
      | Some text => Some text
      | None => match e with WriteJson _ text => Some text | _ => None end
      end
  end.

Section Site.

Variable failure : Type.

(** A site that answers every request for a URL alike. *)
Variable site : string -> failure + soup.

(** What the sweep gets from one category link of such a site. *)
Definition subpage_records (link : string * string) : list person :=
  match site (snd link) with
  | inr page => extract_people_data page (Some (fst link))
  | inl _ => []
  end.

(** What the sweep does for one category link, in plain HTTP mode without
    fallback. *)
Definition subpage_events (link : string * string) : trace :=
  HttpGet (snd link)
  :: match site (snd link) with
     | inr _ => [Sleep 1]
     | inl _ => []
     end.

End Site.

(** A computation only appends events, all of them of kind [P]. *)
Definition adds {failure A : Type} (P : event -> bool) (m : io failure A) : Prop :=
  forall t, exists evs, snd (m t) = (t ++ evs)%list /\ forallb P evs = true.

(** What the extractor guarantees of every record. *)
Definition well_formed (p : person) : Prop :=
  category p <> ""
  /\ PyStr.strip (name p) = name p
  /\ (honorific p = "" \/ In (honorific p) honorifics)
  /\ (profile_url p = "N/A" \/ PyStr.startswith (profile_url p) "http" = true).

(** What [main] writes at its end. *)
Definition result_events (all_people : list person) : trace :=
  match all_people with
  | [] => []
  | _ => [WriteJson "people_data.json" (save_to_json all_people);
          WriteCsv "people_data.csv" all_people]
  end.

End Runs.

(** * Properties *)

(** ** Strings *)

Module PyStrFacts.
Import PyStr Notions.

Lemma append_assoc (a b c : string) : (a ++ b) ++ c = a ++ (b ++ c).
Proof. induction a as [|x a IH]; simpl; [reflexivity | now rewrite IH]. Qed.

Lemma append_empty_r (a : string) : a ++ "" = a.
Proof. induction a as [|x a IH]; simpl; [reflexivity | now rewrite IH]. Qed.

Lemma append_nonempty_r (a b : string) : b <> "" -> a ++ b <> "".
Proof. destruct a; simpl; [auto | discriminate]. Qed.

Lemma length_lstrip (s : string) : String.length (lstrip s) <= String.length s.
Proof.
  induction s as [|c r IH]; simpl; [lia|].
  destruct (is_space c); simpl; lia.
Qed.

Lemma length_rstrip (s : string) : String.length (rstrip s) <= String.length s.
Proof.
  induction s as [|c r IH]; simpl; [lia|].
  destruct (rstrip r) eqn:E; simpl in *.
  - destruct (is_space c); simpl; lia.
  - lia.
Qed.

(** A stripped, non-empty string starts with a character that is no
    whitespace and is left alone by both halves of [strip]. *)
Lemma strip_fixed_inv (s : string) :
  strip s = s -> s <> "" ->
  lstrip s = s /\ rstrip s = s /\
  exists c r, s = String c r /\ is_space c = false.
Proof.
  unfold strip. intros H Hne.
  destruct s as [|c r]; [congruence|].
  assert (Ec : is_space c = false).
  { destruct (is_space c) eqn:Ec; [exfalso|reflexivity].
    cbn [lstrip] in H. rewrite Ec in H.
    pose proof (length_rstrip (lstrip r)) as H1.
    pose proof (length_lstrip r) as H2.
    rewrite H in H1. simpl in H1. lia. }
  assert (El : lstrip (String c r) = String c r) by (cbn [lstrip]; now rewrite Ec).
  rewrite El in H. repeat split; eauto.
Qed.

Lemma rstrip_app (a b : string) :
  rstrip b <> "" -> rstrip (a ++ b) = a ++ rstrip b.
Proof.
  intros Hb. induction a as [|x a IH]; simpl; [reflexivity|].
  rewrite IH. destruct (a ++ rstrip b) eqn:E; [|reflexivity].
  exfalso. apply (append_nonempty_r a (rstrip b) Hb E).
Qed.

(** What [rstrip] returns has no whitespace at its end, so stripping it
    again changes nothing. *)
Lemma rstrip_idem (s : string) : rstrip (rstrip s) = rstrip s.
Proof.
  induction s as [|c r IH]; simpl; [reflexivity|].
  destruct (rstrip r) as [|d r'] eqn:E.
  - destruct (is_space c) eqn:Ec; simpl; [reflexivity | now rewrite Ec].
  - simpl in *. rewrite IH. reflexivity.
Qed.

Lemma split_words (s : string) : Forall word (split s).
Proof.
  induction s as [|c r IH]; simpl; [constructor|].
  destruct (is_space c) eqn:Ec; [assumption|].
  assert (Hc : word (String c "")).
  { split; [discriminate | simpl; now rewrite Ec]. }
  destruct r as [|d r']; [repeat constructor; apply Hc|].
  destruct (is_space d) eqn:Ed; [constructor; [apply Hc | exact IH]|].
  destruct (split (String d r')) as [|w ws] eqn:Es;
    [repeat constructor; apply Hc|].
  inversion IH as [|? ? [Hw1 Hw2] Hws]; subst.
  constructor; [|assumption].
  split; [discriminate | simpl; now rewrite Ec, Hw2].
Qed.

Lemma rstrip_word (w : string) : no_space w = true -> rstrip w = w.
Proof.
  induction w as [|c r IH]; simpl; [reflexivity|].
  intros H. apply andb_prop in H as [Hc Hr].
  rewrite (IH Hr). destruct r; [|reflexivity].
  apply negb_true_iff in Hc. now rewrite Hc.
Qed.

Lemma join_words_nonempty (sep : string) (w : string) (ws : list string) :
  w <> "" -> join sep (w :: ws) <> "".
Proof.
  intros Hw. destruct ws; simpl; [assumption|].
  destruct w; [congruence | discriminate].
Qed.

Lemma lstrip_join_words (ws : list string) :
  Forall word ws -> lstrip (join " " ws) = join " " ws.
Proof.
  intros H. destruct H as [|w ws [Hne Hns] Hws]; [reflexivity|].
  destruct w as [|c r]; [congruence|].
  simpl in Hns. apply andb_prop in Hns as [Hc _]. apply negb_true_iff in Hc.
  destruct ws; simpl; now rewrite Hc.
Qed.

Lemma rstrip_join_words (ws : list string) :
  Forall word ws -> rstrip (join " " ws) = join " " ws.
Proof.
  induction 1 as [|w ws [Hne Hns] Hws IH]; [reflexivity|].
  destruct ws as [|w' ws']; [simpl; now apply rstrip_word|].
  change (join " " (w :: w' :: ws')) with (w ++ " " ++ join " " (w' :: ws')).
  rewrite <- append_assoc, rstrip_app; rewrite IH; [reflexivity|].
  inversion Hws as [|? ? [Hw' _] _]; subst.
  now apply join_words_nonempty.
Qed.

(** [' '.join(s.split())] is stripped. *)
Lemma strip_normalized (s : string) :
  strip (join " " (split s)) = join " " (split s).
Proof.
  unfold strip. pose proof (split_words s) as H.
  rewrite (lstrip_join_words _ H). now apply rstrip_join_words.
Qed.

End PyStrFacts.

(** ** The name splitter *)

Section NameSplitter.
Import PyStr PyStrFacts.

Lemma match_honorific_none (hs : list string) (s : string) :
  (forall h, In h hs -> startswith s (h ++ " ") = false) ->
  match_honorific hs s = None.
Proof.
  induction hs as [|h hs IH]; intros H; simpl; [reflexivity|].
  rewrite (H h (or_introl eq_refl)). apply IH. intros q Hq. apply H. now right.
Qed.

(** Without a prefix, a stripped name is returned as it is. *)
Lemma parse_stripped_without_prefix (s : string) :
  strip s = s ->
  (forall h, In h honorifics -> startswith s (h ++ " ") = false) ->
  parse_name_and_honorific s = (s, "").
Proof.
  intros Hs Hp. unfold parse_name_and_honorific.
  rewrite Hs, (match_honorific_none _ _ Hp). reflexivity.
Qed.

(** A stripped non-empty name behind a prefix and a space is stripped as a
    whole. *)
Lemma strip_prefixed (p n : string) :
  In p honorifics -> n <> "" -> strip n = n ->
  strip (p ++ " " ++ n) = p ++ " " ++ n.
Proof.
  intros Hp Hn Hs.
  destruct (strip_fixed_inv n Hs Hn) as (_ & Hr & _).
  assert (Hl : lstrip (p ++ " " ++ n) = p ++ " " ++ n).
  { simpl in Hp. repeat (destruct Hp as [<-|Hp]; [reflexivity|]). destruct Hp. }
  unfold strip. rewrite Hl, <- append_assoc, rstrip_app; rewrite Hr; auto.
Qed.

Lemma strip_after_space (n : string) : strip (String " " n) = strip n.
Proof. reflexivity. Qed.

(** The loop stops at the prefix the name was built from: no other entry of
    the list is followed by a space at the start of [p ++ " " ++ n]. *)
Lemma match_honorific_prefixed (p n : string) :
  In p honorifics ->
  match_honorific honorifics (p ++ " " ++ n) = Some (strip n, p).
Proof.
  intros Hp. simpl in Hp.
  repeat (destruct Hp as [<-|Hp]; [destruct n; reflexivity|]). destruct Hp.
Qed.

Lemma parse_prefixed_stripped (p n : string) :
  In p honorifics -> n <> "" -> strip n = n ->
  parse_name_and_honorific (p ++ " " ++ n) = (n, p).
Proof.
  intros Hp Hn Hs. unfold parse_name_and_honorific.
  rewrite (strip_prefixed p n Hp Hn Hs), (match_honorific_prefixed p n Hp), Hs.
  reflexivity.
Qed.

End NameSplitter.

(** C3: a whitespace-normalized string that does not begin with a recognized
    prefix followed by a space is returned unchanged, with the empty
    honorific; "Mrston Smith" is such a string and does not get the
    honorific "Mrs". *)
Theorem parse_name_and_honorific_no_prefix (s : string) :
  PyStr.join " " (PyStr.split s) = s ->
  (forall h, In h honorifics -> PyStr.startswith s (h ++ " ") = false) ->
  parse_name_and_honorific s = (s, "")
  /\ parse_name_and_honorific "Mrston Smith" = ("Mrston Smith", "")
  /\ snd (parse_name_and_honorific "Mrston Smith") <> "Mrs".
Proof.
  intros Hn Hp. split; [|split; [reflexivity | discriminate]].
  apply parse_stripped_without_prefix; [|assumption].
  rewrite <- Hn. apply PyStrFacts.strip_normalized.
Qed.

Lemma parse_name_and_honorific_no_prefix_witness :
  PyStr.join " " (PyStr.split "Mrston Smith") = "Mrston Smith"
  /\ parse_name_and_honorific "Mrston Smith" = ("Mrston Smith", "").
Proof.
  split; [reflexivity|].
  apply (parse_name_and_honorific_no_prefix "Mrston Smith").
  - reflexivity.
  - intros h Hh. simpl in Hh.
    repeat (destruct Hh as [<-|Hh]; [reflexivity|]). destruct Hh.
Defined.

(** ** Blank and stripped strings *)

Module StripFacts.
Import PyStr Notions PyStrFacts.

Lemma rstrip_empty_iff (s : string) : rstrip s = "" <-> blank s = true.
Proof.
  induction s as [|c r IH]; simpl; [tauto|].
  destruct (rstrip r) eqn:E.
  - destruct (is_space c); simpl;
      [rewrite <- IH; tauto | split; discriminate].
  - split; [discriminate|]. intros H. apply andb_prop in H as [_ H].
    apply IH in H. discriminate.
Qed.

Lemma lstrip_empty_iff (s : string) : lstrip s = "" <-> blank s = true.
Proof.
  induction s as [|c r IH]; simpl; [tauto|].
  destruct (is_space c); simpl; [assumption | split; discriminate].
Qed.

Lemma blank_lstrip (s : string) : blank (lstrip s) = blank s.
Proof.
  induction s as [|c r IH]; simpl; [reflexivity|].
  destruct (is_space c) eqn:E; simpl; [assumption | now rewrite E].
Qed.

Lemma strip_empty_iff (s : string) : strip s = "" <-> blank s = true.
Proof. unfold strip. now rewrite rstrip_empty_iff, blank_lstrip. Qed.

Lemma blank_app (a b : string) : blank (a ++ b) = blank a && blank b.
Proof.
  induction a as [|c a IH]; simpl; [reflexivity|].
  now rewrite IH, andb_assoc.
Qed.

Lemma rstrip_app_blank (a b : string) :
  blank b = true -> rstrip (a ++ b) = rstrip a.
Proof.
  intros Hb. induction a as [|c a IH]; simpl.
  - now apply rstrip_empty_iff.
  - now rewrite IH.
Qed.

Lemma lstrip_rstrip_fixed (y : string) :
  lstrip y = y -> lstrip (rstrip y) = rstrip y.
Proof.
  destruct y as [|c r]; [reflexivity|].
  cbn [lstrip]. destruct (is_space c) eqn:Ec.
  - intros H. exfalso. pose proof (length_lstrip r) as Hl.
    rewrite H in Hl. simpl in Hl. lia.
  - intros _. cbn [rstrip]. destruct (rstrip r); rewrite ?Ec; cbn [lstrip];
      now rewrite Ec.
Qed.

Lemma lstrip_idem (s : string) : lstrip (lstrip s) = lstrip s.
Proof.
  induction s as [|c r IH]; simpl; [reflexivity|].
  destruct (is_space c) eqn:Ec; [assumption | simpl; now rewrite Ec].
Qed.

Lemma strip_idem (s : string) : strip (strip s) = strip s.
Proof.
  unfold strip.
  rewrite (lstrip_rstrip_fixed (lstrip s) (lstrip_idem s)).
  apply rstrip_idem.
Qed.

Lemma prefix_split (a s : string) :
  startswith s a = true -> exists rest, s = a ++ rest.
Proof.
  revert s. induction a as [|x a IH]; intros s H.
  - exists s. reflexivity.
  - destruct s as [|y s]; simpl in H; [discriminate|].
    apply andb_prop in H as [Hx H]. apply Ascii.eqb_eq in Hx as ->.
    destruct (IH s H) as [rest ->]. now exists rest.
Qed.

Lemma slice_from_app (a b : string) : slice_from (String.length a) (a ++ b) = b.
Proof. induction a as [|x a IH]; simpl; [now destruct b | assumption]. Qed.

Lemma length_app (a b : string) :
  String.length (a ++ b) = String.length a + String.length b.
Proof. induction a as [|x a IH]; simpl; [reflexivity | now rewrite IH]. Qed.

(** The strings joined by [get_text(strip=True)] are stripped and
    non-empty, and so is what they give together. *)
Lemma strip_join_solid (l : list string) :
  Forall solid l -> strip (join "" l) = join "" l.
Proof.
  intros H.
  assert (Hr : rstrip (join "" l) = join "" l).
  { induction H as [|w ws [Hne Hs] Hws IH]; [reflexivity|].
    destruct (strip_fixed_inv w Hs Hne) as (_ & Hrw & _).
    destruct ws as [|w' ws']; [exact Hrw|].
    change (join "" (w :: w' :: ws')) with (w ++ join "" (w' :: ws')).
    rewrite rstrip_app; rewrite IH; [reflexivity|].
    inversion Hws as [|? ? [Hw' _] _]; subst.
    now apply join_words_nonempty. }
  unfold strip. destruct H as [|w ws [Hne Hs] Hws]; [reflexivity|].
  destruct (strip_fixed_inv w Hs Hne) as (_ & _ & c & r & -> & Hc).
  assert (Hl : lstrip (join "" (String c r :: ws)) = join "" (String c r :: ws)).
  { destruct ws; simpl; now rewrite Hc. }
  now rewrite Hl.
Qed.

Lemma truthy_nonempty (s : string) : truthy s = true <-> s <> "".
Proof. destruct s; simpl; split; congruence. Qed.

Lemma solid_stripped (l : list string) :
  Forall solid (filter truthy (map strip l)).
Proof.
  induction l as [|x l IH]; simpl; [constructor|].
  destruct (truthy (strip x)) eqn:E; [|assumption].
  constructor; [|assumption].
  split; [now apply truthy_nonempty | apply strip_idem].
Qed.

End StripFacts.

(** ** The name of a record *)

Section NameOfRecord.
Import PyStr Notions PyStrFacts StripFacts.

Lemma match_honorific_some (hs : list string) (f nm h : string) :
  match_honorific hs f = Some (nm, h) ->
  startswith f (h ++ " ") = true
  /\ nm = strip (slice_from (String.length h) f).
Proof.
  induction hs as [|x hs IH]; simpl; [discriminate|].
  destruct (startswith f (x ++ " ")) eqn:E.
  - intros [= <- <-]. auto.
  - exact IH.
Qed.

(** On a stripped display name the splitter never leaves an empty name
    behind a prefix: the name is empty only when the display name is. *)
Lemma parse_name_empty_iff (f : string) :
  strip f = f -> (fst (parse_name_and_honorific f) = "" <-> f = "").
Proof.
  intros Hs. split; [|intros ->; reflexivity].
  unfold parse_name_and_honorific. rewrite Hs.
  destruct (match_honorific honorifics f) as [[nm h]|] eqn:E; simpl; [|auto].
  intros ->. exfalso.
  apply match_honorific_some in E as [Hp Hn].
  destruct (prefix_split _ _ Hp) as [rest ->].
  rewrite append_assoc in Hn. rewrite slice_from_app in Hn.
  symmetry in Hn. apply strip_empty_iff in Hn. simpl in Hn.
  assert (Hb : blank (" " ++ rest) = true) by exact Hn.
  unfold strip in Hs.
  pose proof (length_rstrip (lstrip ((h ++ " ") ++ rest))) as H1.
  pose proof (length_lstrip ((h ++ " ") ++ rest)) as H2.
  assert (H3 : lstrip ((h ++ " ") ++ rest) = (h ++ " ") ++ rest).
  { destruct (string_dec (lstrip ((h ++ " ") ++ rest)) ((h ++ " ") ++ rest)) as [e|ne];
      [exact e|exfalso].
    destruct ((h ++ " ") ++ rest) as [|c r] eqn:Ef; [now apply ne|].
    cbn [lstrip] in *. destruct (is_space c); [|now apply ne].
    pose proof (length_lstrip r) as H5.
    rewrite Hs in H1. simpl in H1. lia. }
  rewrite H3, append_assoc, (rstrip_app_blank h _ Hb) in Hs.
  pose proof (length_rstrip h) as H4. rewrite Hs in H4.
  rewrite length_app in H4. simpl in H4. lia.
Qed.

Lemma strip_get_text_strip (n : node) :
  strip (Soup.get_text_strip n) = Soup.get_text_strip n.
Proof. apply strip_join_solid, solid_stripped. Qed.

End NameOfRecord.

(** ** The card loop *)

Section CardLoop.
Import Notions.

Lemma extract_loop_running (cards : list Soup.located) (cat : string)
  (people : list person) :
  extract_loop cards cat people = (people ++ records (running cards cat))%list.
Proof.
  revert cat people. induction cards as [|card rest IH]; intros cat people; simpl.
  - now rewrite app_nil_r.
  - unfold records. simpl.
    destruct (card_person (Soup.here card) (update_category card cat)) as [p|];
      rewrite IH; [now rewrite <- app_assoc | reflexivity].
Qed.

Lemma extract_people_data_running (s : soup) (dc : option string) :
  extract_people_data s dc
  = records (running (Soup.find_all s is_card) (initial_category dc)).
Proof. unfold extract_people_data. now rewrite extract_loop_running. Qed.

Lemma card_person_has_header (card : Soup.located) (cat : string) :
  has_header card = true <-> card_person (Soup.here card) cat <> None.
Proof.
  unfold has_header, card_person.
  destruct (Soup.find (Soup.here card) is_card_header) as [header|];
    [|split; congruence].
  split; [|reflexivity]. intros _.
  destruct (Soup.find header (Soup.is_tag "a"));
    destruct (parse_name_and_honorific _); discriminate.
Qed.

(** One record per card with a heading, in the order of the cards, each
    built by [card_person] under some category. *)
Lemma records_Forall2 (R : Soup.located -> person -> Prop)
  (l : list (Soup.located * string)) :
  (forall c cat p, In (c, cat) l -> card_person (Soup.here c) cat = Some p -> R c p) ->
  Forall2 R (filter has_header (map fst l)) (records l).
Proof.
  induction l as [|[c cat] l IH]; intros H; simpl; [constructor|].
  pose proof (card_person_has_header c cat) as Hh.
  destruct (card_person (Soup.here c) cat) as [p|] eqn:E.
  - replace (has_header c) with true by (symmetry; apply Hh; discriminate).
    simpl. constructor; [apply (H c cat p); [now left | assumption]|].
    apply IH. intros c' cat' p' Hin. apply H. now right.
  - replace (has_header c) with false.
    + apply IH. intros c' cat' p' Hin. apply H. now right.
    + destruct (has_header c); [|reflexivity]. exfalso. now apply Hh.
Qed.

Lemma map_fst_running (cards : list Soup.located) (cat : string) :
  map fst (running cards cat) = cards.
Proof.
  revert cat. induction cards as [|c cards IH]; intros cat; simpl;
    [reflexivity | now rewrite IH].
Qed.

Lemma extract_people_data_Forall2 (R : Soup.located -> person -> Prop)
  (s : soup) (dc : option string) :
  (forall c cat p, card_person (Soup.here c) cat = Some p -> R c p) ->
  Forall2 R (filter has_header (Soup.find_all s is_card)) (extract_people_data s dc).
Proof.
  intros H. rewrite extract_people_data_running.
  rewrite <- (map_fst_running (Soup.find_all s is_card) (initial_category dc)) at 1.
  apply records_Forall2. intros c cat p _. apply H.
Qed.

End CardLoop.

(** ** Records of the card extractor *)

Section Records.
Import Notions.

Lemma profile_url_of_not_sentinel (href : string) : profile_url_of href <> "N/A".
Proof.
  unfold profile_url_of.
  destruct (PyStr.startswith href "http") eqn:E1.
  - intros ->. discriminate.
  - destruct (PyStr.startswith href "/"); discriminate.
Qed.

Lemma profile_url_of_empty : profile_url_of "" = "https://cis.unimelb.edu.au/".
Proof. reflexivity. Qed.

Lemma update_category_section (card : Soup.located) (cat : string) :
  update_category card cat
  = match section_category card with Some t => t | None => cat end.
Proof.
  unfold update_category, section_category.
  destruct (Soup.find_previous card is_section_header); [|reflexivity].
  now destruct (qualifying _).
Qed.

End Records.

(** C1 (as amended): the records returned are, in order, one per card that
    has an [h3.card__header] heading; cards without one are skipped.  The
    name of a record is empty exactly when the display name read from that
    heading (the normalized text of its first link, or its stripped text
    when it has no link) is empty; so every record has a non-empty name when
    no card's display name is empty. *)
Theorem extract_people_data_names (s : soup) (default_category : option string) :
  Forall2
    (fun card p =>
       exists full_name,
         Notions.full_name_of (Soup.here card) = Some full_name
         /\ (name p = "" <-> full_name = ""))
    (filter Notions.has_header (Soup.find_all s is_card))
    (extract_people_data s default_category)
  /\ ((forall card, In card (Soup.find_all s is_card) ->
                    Notions.full_name_of (Soup.here card) <> Some "") ->
      Forall (fun p => name p <> "") (extract_people_data s default_category)).
Proof.
  assert (H : Forall2
                (fun card p =>
                   exists full_name,
                     Notions.full_name_of (Soup.here card) = Some full_name
                     /\ (name p = "" <-> full_name = ""))
                (filter Notions.has_header (Soup.find_all s is_card))
                (extract_people_data s default_category)).
  { apply extract_people_data_Forall2. intros c cat p.
    unfold card_person, Notions.full_name_of.
    destruct (Soup.find (Soup.here c) is_card_header) as [header|]; [|discriminate].
    destruct (Soup.find header (Soup.is_tag "a")) as [name_link|].
    - destruct (parse_name_and_honorific _) as [nm h] eqn:E. intros [= <-]. simpl.
      eexists; split; [reflexivity|].
      rewrite <- (parse_name_empty_iff _ (PyStrFacts.strip_normalized _)).
      now rewrite E.
    - destruct (parse_name_and_honorific _) as [nm h] eqn:E. intros [= <-]. simpl.
      eexists; split; [reflexivity|].
      rewrite <- (parse_name_empty_iff _ (strip_get_text_strip _)).
      now rewrite E. }
  split; [exact H|]. intros Hall.
  assert (Hsub : forall card,
             In card (filter Notions.has_header (Soup.find_all s is_card)) ->
             Notions.full_name_of (Soup.here card) <> Some "").
  { intros card Hin. apply Hall. now apply filter_In in Hin as [Hin _]. }
  clear Hall. induction H as [|card p cards people (f & Hf & Hiff) _ IH];
    constructor.
  - intros Hp. apply (Hsub card); [now left|]. rewrite Hf. f_equal. now apply Hiff.
  - apply IH. intros c Hc. apply Hsub. now right.
Qed.

Lemma extract_people_data_names_witness :
  Forall (fun p => name p <> "") (extract_people_data Samples.sectioned None).
Proof.
  apply (proj2 (extract_people_data_names Samples.sectioned None)).
  intros card Hin. simpl in Hin.
  repeat (destruct Hin as [<-|Hin]; [discriminate|]). destruct Hin.
Defined.

(** C1 as stated fails on a card whose heading has no text: the card is
    not skipped, its record has the empty name. *)
Lemma extract_people_data_names_counterexample :
  extract_people_data
    [Elem "div" [("class", "card")] [Elem "h3" [("class", "card__header")] []]]
    None
  = [{| name := ""; honorific := ""; profile_url := "N/A"; title := "N/A";
        category := "General" |}]
  /\ ~ Forall (fun p => name p <> "")
         (extract_people_data
            [Elem "div" [("class", "card")] [Elem "h3" [("class", "card__header")] []]]
            None).
Proof.
  split; [reflexivity|].
  intros H. inversion H as [|p ps Hp _]; subst. now apply Hp.
Qed.

(** C10: the record of a card whose heading has a link without an [href]
    (or with an empty one) has the site origin with a trailing slash as
    profile URL; the sentinel "N/A" is the profile URL exactly when the
    heading has no link at all. *)
Theorem extract_people_data_link_without_href
  (s : soup) (default_category : option string) :
  Forall2
    (fun card p =>
       exists header,
         Soup.find (Soup.here card) is_card_header = Some header
         /\ (forall name_link,
               Soup.find header (Soup.is_tag "a") = Some name_link ->
               Soup.get name_link "href" = None \/ Soup.get name_link "href" = Some "" ->
               profile_url p = "https://cis.unimelb.edu.au/")
         /\ (profile_url p = "N/A" <-> Soup.find header (Soup.is_tag "a") = None))
    (filter Notions.has_header (Soup.find_all s is_card))
    (extract_people_data s default_category).
Proof.
  apply extract_people_data_Forall2. intros c cat p. unfold card_person.
  destruct (Soup.find (Soup.here c) is_card_header) as [header|]; [|discriminate].
  destruct (Soup.find header (Soup.is_tag "a")) as [name_link|] eqn:El.
  - destruct (parse_name_and_honorific _) as [nm h]. intros [= <-]. simpl.
    exists header. split; [reflexivity|]. split.
    + intros l Hl Hh. rewrite El in Hl. injection Hl as <-. unfold Soup.get_default.
      destruct Hh as [-> | ->]; reflexivity.
    + rewrite El. split; [|discriminate]. intros H.
      now apply profile_url_of_not_sentinel in H.
  - destruct (parse_name_and_honorific _) as [nm h]. intros [= <-]. simpl.
    exists header. split; [reflexivity|]. rewrite El.
    split; [discriminate|]. tauto.
Qed.

(** C9: on a page whose only card has a heading without a link, with the
    bare text "Dr A Lee", no sub-heading and no qualifying section header
    before it, the extractor run with the default category
    "Research Fellows" returns exactly the record of A Lee. *)
Theorem extract_people_data_bare_heading
  (s : soup) (card : Soup.located) (header : node) :
  Soup.find_all s is_card = [card] ->
  Soup.find (Soup.here card) is_card_header = Some header ->
  Soup.find header (Soup.is_tag "a") = None ->
  Soup.get_text_strip header = "Dr A Lee" ->
  Soup.find (Soup.here card) is_sub_heading = None ->
  Notions.section_category card = None ->
  extract_people_data s (Some "Research Fellows")
  = [{| name := "A Lee"; honorific := "Dr"; title := "N/A";
        category := "Research Fellows"; profile_url := "N/A" |}].
Proof.
  intros Hc Hh Hl Ht Hs Hp. unfold extract_people_data. rewrite Hc.
  cbn [extract_loop]. rewrite update_category_section, Hp.
  unfold card_person. rewrite Hh, Hl, Ht, Hs. reflexivity.
Qed.

Lemma extract_people_data_bare_heading_witness :
  extract_people_data
    [Elem "h2" [("id", "featured")] [Text "Featured content"];
     Elem "div" [("class", "card")]
       [Elem "h3" [("class", "card__header")] [Text "Dr A Lee"]]]
    (Some "Research Fellows")
  = [{| name := "A Lee"; honorific := "Dr"; title := "N/A";
        category := "Research Fellows"; profile_url := "N/A" |}].
Proof.
  eapply (extract_people_data_bare_heading _
            {| Soup.previous_elements :=
                 [Text "Featured content";
                  Elem "h2" [("id", "featured")] [Text "Featured content"]];
               Soup.here := Elem "div" [("class", "card")]
                 [Elem "h3" [("class", "card__header")] [Text "Dr A Lee"]] |}
            (Elem "h3" [("class", "card__header")] [Text "Dr A Lee"]));
    reflexivity.
Defined.

(** C4 (as amended): the card extractor and the category link finder (on
    the site origin) resolve every link target alike: a target that begins
    with the characters "http" is kept as it is, a target that begins with
    "/" has the origin put before it, and any other is joined onto the
    origin with a "/" between; so "/people/john" gives <origin>/people/john
    and "john" gives <origin>/john. *)
Theorem url_resolution (href : string) :
  profile_url_of href = category_url_of "https://cis.unimelb.edu.au" href
  /\ (PyStr.startswith href "http" = true -> profile_url_of href = href)
  /\ (PyStr.startswith href "/" = true ->
      profile_url_of href = "https://cis.unimelb.edu.au" ++ href)
  /\ (PyStr.startswith href "http" = false -> PyStr.startswith href "/" = false ->
      profile_url_of href = "https://cis.unimelb.edu.au" ++ "/" ++ href)
  /\ profile_url_of "/people/john" = "https://cis.unimelb.edu.au/people/john"
  /\ profile_url_of "john" = "https://cis.unimelb.edu.au/john".
Proof.
  assert (Hx : PyStr.startswith href "http" = true -> PyStr.startswith href "/" = false).
  { destruct href as [|c r]; cbn [PyStr.startswith]; [discriminate|].
    destruct (Ascii.eqb_spec "h" c) as [<-|]; [reflexivity | discriminate]. }
  unfold profile_url_of, category_url_of.
  change (PyStr.rstrip_char "/" "https://cis.unimelb.edu.au")
    with "https://cis.unimelb.edu.au".
  destruct (PyStr.startswith href "http") eqn:E1;
    destruct (PyStr.startswith href "/") eqn:E2;
    try (specialize (Hx eq_refl); discriminate);
    repeat split; try reflexivity; try discriminate.
Qed.

Lemma url_resolution_witness :
  profile_url_of "/people/john" = "https://cis.unimelb.edu.au" ++ "/people/john"
  /\ profile_url_of "https://example.org/x" = "https://example.org/x"
  /\ profile_url_of "john" = "https://cis.unimelb.edu.au" ++ "/" ++ "john".
Proof.
  split; [|split].
  - apply (proj1 (proj2 (proj2 (url_resolution "/people/john")))). reflexivity.
  - apply (proj1 (proj2 (url_resolution "https://example.org/x"))). reflexivity.
  - apply (proj1 (proj2 (proj2 (proj2 (url_resolution "john"))))); reflexivity.
Defined.

(** C4 as stated fails on a target with a scheme other than http(s): it
    begins with a scheme, yet both resolvers join it onto the origin. *)
Lemma url_resolution_counterexample :
  Notions.begins_with_scheme "mailto:jane.doe@unimelb.edu.au" = true
  /\ profile_url_of "mailto:jane.doe@unimelb.edu.au"
     = "https://cis.unimelb.edu.au/mailto:jane.doe@unimelb.edu.au"
  /\ category_url_of "https://cis.unimelb.edu.au" "mailto:jane.doe@unimelb.edu.au"
     = "https://cis.unimelb.edu.au/mailto:jane.doe@unimelb.edu.au"
  /\ profile_url_of "mailto:jane.doe@unimelb.edu.au" <> "mailto:jane.doe@unimelb.edu.au".
Proof. repeat split; try reflexivity. discriminate. Qed.

(** ** The running category *)

Section RunningCategory.
Import Notions.

Lemma running_app (l1 l2 : list Soup.located) (cat : string) :
  running (l1 ++ l2) cat = (running l1 cat ++ running l2 (category_after l1 cat))%list.
Proof.
  revert cat. induction l1 as [|c l1 IH]; intros cat; simpl; [reflexivity|].
  now rewrite IH.
Qed.

Lemma records_app (a b : list (Soup.located * string)) :
  records (a ++ b) = (records a ++ records b)%list.
Proof. apply flat_map_app. Qed.

(** Cards whose section header is absent, not qualifying, or carries the
    running category [t] again leave [t] running. *)
Lemma running_kept (cs rest : list Soup.located) (t : string) :
  Forall (fun c => section_category c = None \/ section_category c = Some t) cs ->
  running (cs ++ rest) t = (map (fun c => (c, t)) cs ++ running rest t)%list.
Proof.
  induction 1 as [|c cs Hc _ IH]; simpl; [reflexivity|].
  rewrite update_category_section.
  destruct Hc as [-> | ->]; now rewrite IH.
Qed.

Lemma scan_from (s : soup) (dc : option string)
  (cs1 : list Soup.located) (c : Soup.located) (cs2 cs3 : list Soup.located) (t : string) :
  Soup.find_all s is_card = (cs1 ++ c :: cs2 ++ cs3)%list ->
  update_category c (category_after cs1 (initial_category dc)) = t ->
  Forall (fun c' => section_category c' = None \/ section_category c' = Some t) cs2 ->
  extract_people_data s dc
  = (records (running cs1 (initial_category dc))
     ++ records (map (fun c' => (c', t)) (c :: cs2))
     ++ records (running cs3 t))%list.
Proof.
  intros Hc Ht Hk. rewrite extract_people_data_running, Hc, running_app, records_app.
  f_equal. cbn [running]. rewrite Ht.
  change ((c, t) :: running (cs2 ++ cs3) t)
    with ([(c, t)] ++ running (cs2 ++ cs3) t)%list.
  rewrite (running_kept cs2 cs3 t Hk), app_assoc, records_app. reflexivity.
Qed.

Lemma card_person_some (c : Soup.located) (cat : string) :
  has_header c = true ->
  exists p, card_person (Soup.here c) cat = Some p /\ category p = cat.
Proof.
  unfold has_header, card_person.
  destruct (Soup.find (Soup.here c) is_card_header) as [header|]; [|discriminate].
  intros _.
  destruct (Soup.find header (Soup.is_tag "a"));
    destruct (parse_name_and_honorific _); eexists; split; reflexivity.
Qed.

End RunningCategory.

(** C5: the category is assigned by a forward scan with a running value.
    (1) A card whose nearest preceding [h2] with an [id] has a qualifying
    text [t] gets [t], and so do the cards after it as long as their own
    such header is absent, not qualifying, or gives [t] again.
    (2) Cards whose header is absent or not qualifying (as "Site footer")
    keep the category of the card before them.
    (3) On a page with header H1, cards A and B, header H2, cards C and D
    and no default category, A and B get the text of H1 and C and D the
    text of H2, also when a header that does not qualify stands between C
    and D. *)
Theorem category_forward_scan :
  (forall (s : soup) (dc : option string) cs1 c cs2 cs3 t,
     Soup.find_all s is_card = (cs1 ++ c :: cs2 ++ cs3)%list ->
     Notions.section_category c = Some t ->
     Forall (fun c' => Notions.section_category c' = None
                       \/ Notions.section_category c' = Some t) cs2 ->
     extract_people_data s dc
     = (Notions.records (Notions.running cs1 (initial_category dc))
        ++ Notions.records (map (fun c' => (c', t)) (c :: cs2))
        ++ Notions.records (Notions.running cs3 t))%list)
  /\ (forall (s : soup) (dc : option string) cs1 c cs2 cs3,
        Soup.find_all s is_card = (cs1 ++ c :: cs2 ++ cs3)%list ->
        Forall (fun c' => Notions.section_category c' = None) cs2 ->
        exists t,
          extract_people_data s dc
          = (Notions.records (Notions.running cs1 (initial_category dc))
             ++ Notions.records (map (fun c' => (c', t)) (c :: cs2))
             ++ Notions.records (Notions.running cs3 t))%list)
  /\ (forall (s : soup) A B C D h1 h2,
        Soup.find_all s is_card = [A; B; C; D] ->
        Forall (fun c => Notions.has_header c = true) [A; B; C; D] ->
        Soup.find_previous A is_section_header = Some h1 ->
        Soup.find_previous B is_section_header = Some h1 ->
        Soup.find_previous C is_section_header = Some h2 ->
        (Soup.find_previous D is_section_header = Some h2
         \/ exists f, Soup.find_previous D is_section_header = Some f
                      /\ qualifying (Soup.get_text_strip f) = false) ->
        qualifying (Soup.get_text_strip h1) = true ->
        qualifying (Soup.get_text_strip h2) = true ->
        map category (extract_people_data s None)
        = [Soup.get_text_strip h1; Soup.get_text_strip h1;
           Soup.get_text_strip h2; Soup.get_text_strip h2]).
Proof.
  split; [|split].
  - intros s dc cs1 c cs2 cs3 t Hc Ht Hk.
    apply scan_from; [assumption | | assumption].
    now rewrite update_category_section, Ht.
  - intros s dc cs1 c cs2 cs3 Hc Hk.
    exists (update_category c (Notions.category_after cs1 (initial_category dc))).
    apply scan_from; [assumption | reflexivity |].
    eapply Forall_impl; [|exact Hk]. intros c' H. now left.
  - intros s A B C D h1 h2 Hc Hh HA HB HC HD Q1 Q2.
    inversion Hh as [|? ? H1 Hh1]; subst. inversion Hh1 as [|? ? H2 Hh2]; subst.
    inversion Hh2 as [|? ? H3 Hh3]; subst. inversion Hh3 as [|? ? H4 _]; subst.
    assert (EA : Notions.section_category A = Some (Soup.get_text_strip h1))
      by (unfold Notions.section_category; now rewrite HA, Q1).
    assert (EB : Notions.section_category B = Some (Soup.get_text_strip h1))
      by (unfold Notions.section_category; now rewrite HB, Q1).
    assert (EC : Notions.section_category C = Some (Soup.get_text_strip h2))
      by (unfold Notions.section_category; now rewrite HC, Q2).
    assert (ED : Notions.section_category D = None
                 \/ Notions.section_category D = Some (Soup.get_text_strip h2)).
    { unfold Notions.section_category. destruct HD as [-> | (f & -> & ->)];
        [right; now rewrite Q2 | now left]. }
    unfold extract_people_data. rewrite Hc. cbn [extract_loop].
    rewrite !update_category_section, EA.
    destruct (card_person_some A (Soup.get_text_strip h1) H1) as (pa & -> & Ca).
    rewrite EB.
    destruct (card_person_some B (Soup.get_text_strip h1) H2) as (pb & -> & Cb).
    rewrite EC.
    destruct (card_person_some C (Soup.get_text_strip h2) H3) as (pc & -> & Cc).
    destruct (card_person_some D (Soup.get_text_strip h2) H4) as (pd & Ed & Cd).
    destruct ED as [-> | ->]; rewrite Ed; simpl; now rewrite Ca, Cb, Cc, Cd.
Qed.

(** ** The page fetcher and the orchestrator *)

Section CrawlFacts.

Variable failure : Type.
Variable SELENIUM_AVAILABLE : bool.
Variable requests_get browser_get : trace -> string -> failure + soup.

Local Abbreviation fetch_page' :=
  (fetch_page failure SELENIUM_AVAILABLE requests_get browser_get).
Local Abbreviation fetch_main_page' :=
  (fetch_main_page failure SELENIUM_AVAILABLE requests_get browser_get).
Local Abbreviation scrape_category' :=
  (scrape_category failure SELENIUM_AVAILABLE requests_get browser_get).
Local Abbreviation scrape_subpages_loop' :=
  (scrape_subpages_loop failure SELENIUM_AVAILABLE requests_get browser_get).
Local Abbreviation crawl_from' :=
  (crawl_from failure SELENIUM_AVAILABLE requests_get browser_get).
Local Abbreviation main' :=
  (main failure SELENIUM_AVAILABLE requests_get browser_get).
Local Abbreviation persist' := (persist failure).

(** A sub-page whose fetch fails is skipped: the records are as before. *)
Lemma scrape_category_failure (use_selenium : bool) (all_people : list person)
  (category_name category_url : string) (t t' : trace) (e : exn failure) :
  fetch_page' category_url use_selenium t = (Raise e, t') ->
  scrape_category' use_selenium all_people (category_name, category_url) t
  = (Ok all_people, t').
Proof.
  intros H. unfold scrape_category, try_except, bind. now rewrite H.
Qed.

(** A sub-page that is fetched adds its records, under its category name
    as default. *)
Lemma scrape_category_success (use_selenium : bool) (all_people : list person)
  (category_name category_url : string) (t t' : trace) (page : soup) :
  fetch_page' category_url use_selenium t = (Ok page, t') ->
  scrape_category' use_selenium all_people (category_name, category_url) t
  = (Ok (all_people ++ extract_people_data page (Some category_name))%list,
     (t' ++ [Sleep 1])%list).
Proof.
  intros H. unfold scrape_category, try_except, bind, emit, ret. now rewrite H.
Qed.

(** One step of the sweep never raises and only appends. *)
Lemma scrape_category_total (use_selenium : bool) (all_people : list person)
  (link : string * string) (t : trace) :
  exists more t',
    scrape_category' use_selenium all_people link t = (Ok (all_people ++ more)%list, t').
Proof.
  destruct link as [nm url].
  destruct (fetch_page' url use_selenium t) as [[page|e] t'] eqn:E.
  - eexists _, _. eapply scrape_category_success. exact E.
  - exists [], t'. rewrite app_nil_r. eapply scrape_category_failure. exact E.
Qed.

(** The sweep never raises and only appends, whatever the fetches do. *)
Lemma scrape_subpages_loop_total (use_selenium : bool)
  (links : list (string * string)) (all_people : list person) (t : trace) :
  exists more t',
    scrape_subpages_loop' use_selenium links all_people t
    = (Ok (all_people ++ more)%list, t').
Proof.
  revert all_people t. induction links as [|link links IH]; intros all_people t.
  - exists [], t. now rewrite app_nil_r.
  - cbn [scrape_subpages_loop]. unfold bind.
    destruct (scrape_category_total use_selenium all_people link t) as (m1 & t1 & ->).
    destruct (IH (all_people ++ m1)%list t1) as (m2 & t2 & ->).
    exists (m1 ++ m2)%list, t2. now rewrite app_assoc.
Qed.

Lemma scrape_subpages_loop_app (use_selenium : bool)
  (l1 l2 : list (string * string)) (all_people : list person) (t : trace) :
  scrape_subpages_loop' use_selenium (l1 ++ l2) all_people t
  = match scrape_subpages_loop' use_selenium l1 all_people t with
    | (Ok all1, t1) => scrape_subpages_loop' use_selenium l2 all1 t1
    | (Raise e, t1) => (Raise e, t1)
    end.
Proof.
  revert all_people t. induction l1 as [|link l1 IH]; intros all_people t;
    [reflexivity|].
  cbn [app scrape_subpages_loop]. unfold bind.
  destruct (scrape_category' use_selenium all_people link t) as [[a|e] t1];
    [apply IH | reflexivity].
Qed.

Lemma persist_events (all_people : list person) (t : trace) :
  persist' all_people t
  = (Ok tt,
     match all_people with
     | [] => t
     | _ => (t ++ [WriteJson "people_data.json" (save_to_json all_people);
                   WriteCsv "people_data.csv" all_people])%list
     end).
Proof.
  destruct all_people; [reflexivity|].
  unfold persist, bind, emit. now rewrite <- app_assoc.
Qed.

(** C6: when the fetch of one category sub-page fails during the sweep, the
    failure is caught and the category skipped: the records accumulated so
    far are unchanged, the sweep goes on with the remaining categories and
    only appends to them, the run returns normally, and its result (never
    empty when any record was found) is written to the JSON and CSV
    files. *)
Theorem subpage_failure_skipped
  (use_selenium save_html : bool) (t0 t : trace) (page : soup)
  (l1 l2 : list (string * string)) (category_name category_url : string)
  (all1 : list person) (t1 t2 : trace) (e : exn failure) :
  fetch_main_page' use_selenium save_html t0 = (Ok page, t) ->
  find_category_links page "https://cis.unimelb.edu.au"
  = (l1 ++ (category_name, category_url) :: l2)%list ->
  scrape_subpages_loop' (effective_selenium SELENIUM_AVAILABLE use_selenium) l1
    (extract_people_data page None) t = (Ok all1, t1) ->
  fetch_page' category_url (effective_selenium SELENIUM_AVAILABLE use_selenium) t1
  = (Raise e, t2) ->
  scrape_category' (effective_selenium SELENIUM_AVAILABLE use_selenium) all1
    (category_name, category_url) t1 = (Ok all1, t2)
  /\ exists rest t3 t4,
       scrape_subpages_loop' (effective_selenium SELENIUM_AVAILABLE use_selenium) l2
         all1 t2 = (Ok (all1 ++ rest)%list, t3)
       /\ main' use_selenium save_html true t0 = (Ok (all1 ++ rest)%list, t4)
       /\ ((all1 ++ rest)%list <> [] ->
           t4 = (t3 ++ [WriteJson "people_data.json" (save_to_json (all1 ++ rest));
                        WriteCsv "people_data.csv" (all1 ++ rest)])%list).
Proof.
  intros Hmain Hlinks Hbefore Hfail.
  pose proof (scrape_category_failure _ all1 category_name _ _ _ _ Hfail) as Hskip.
  split; [exact Hskip|].
  destruct (scrape_subpages_loop_total
              (effective_selenium SELENIUM_AVAILABLE use_selenium) l2 all1 t2)
    as (rest & t3 & Hrest).
  exists rest, t3. eexists. split; [exact Hrest|].
  unfold main, bind. rewrite Hmain. unfold crawl_from, bind.
  rewrite Hlinks, app_nil_l, scrape_subpages_loop_app, Hbefore.
  cbn [scrape_subpages_loop]. unfold bind. rewrite Hskip, Hrest, persist_events.
  split; [reflexivity|].
  destruct (all1 ++ rest)%list; [congruence | reflexivity].
Qed.

(** C7 (as amended): when the plain HTTP fetch of the landing page fails and
    the fallback is not available, the original failure propagates at once.
    When the fallback is available and plain HTTP was asked for, the
    fallback is tried; if that attempt fails too, the orchestrator tries the
    fallback a second time, and only the outcome of this second attempt
    ends the fetch. *)
Theorem landing_page_fallback (save_html : bool) (t : trace) (e : failure) :
  requests_get t base_url = inl e ->
  (SELENIUM_AVAILABLE = false ->
   forall use_selenium scrape_subpages,
     fetch_main_page' use_selenium save_html t
     = (Raise (FetchFailure e), (t ++ [HttpGet base_url])%list)
     /\ main' use_selenium save_html scrape_subpages t
        = (Raise (FetchFailure e), (t ++ [HttpGet base_url])%list))
  /\ (SELENIUM_AVAILABLE = true ->
      match browser_get (t ++ [HttpGet base_url])%list base_url with
      | inr page =>
          fetch_main_page' false save_html t
          = (Ok page,
             (t ++ [HttpGet base_url] ++ BrowserGet base_url
                :: (if save_html then [WriteHtml "page_source.html" page] else []))%list)
      | inl _ =>
          fetch_main_page' false save_html t
          = (of_result failure
               (browser_get (t ++ [HttpGet base_url] ++ [BrowserGet base_url])%list base_url),
             (t ++ [HttpGet base_url] ++ [BrowserGet base_url; BrowserGet base_url])%list)
      end)
  /\ (forall use_selenium scrape_subpages e' t',
        fetch_main_page' use_selenium save_html t = (Raise e', t') ->
        main' use_selenium save_html scrape_subpages t = (Raise e', t')).
Proof.
  intros Hplain.
  assert (Habort : forall use_selenium scrape_subpages e' t',
             fetch_main_page' use_selenium save_html t = (Raise e', t') ->
             main' use_selenium save_html scrape_subpages t = (Raise e', t')).
  { intros u sc e' t' H. unfold main, bind. now rewrite H. }
  split; [|split; [|exact Habort]].
  - intros Ha use_selenium scrape_subpages.
    assert (H : fetch_main_page' use_selenium save_html t
                = (Raise (FetchFailure e), (t ++ [HttpGet base_url])%list)).
    { unfold fetch_main_page, effective_selenium, fetch_page, fetch_page_requests,
        try_except, bind, raise.
      rewrite Ha. destruct use_selenium; simpl; now rewrite Hplain. }
    split; [exact H | now apply Habort].
  - intros Ha.
    unfold fetch_main_page, effective_selenium, fetch_page, fetch_page_selenium,
      fetch_page_requests, try_except, bind, raise, emit, ret.
    rewrite Ha. simpl. rewrite Hplain. simpl.
    destruct (browser_get (t ++ [HttpGet base_url])%list base_url) as [e1|page];
      simpl.
    + now rewrite <- !app_assoc.
    + destruct save_html; simpl; now rewrite <- !app_assoc.
Qed.

End CrawlFacts.

(** ** The JSON round trip *)

Module JsonFacts.
Import Json Notions PyStrFacts StripFacts.

(** Reading an escaped character gives the character back. *)
Lemma scan_escape_char (c : ascii) (r : string) :
  scan_string (escape_char c ++ r) = cons_char c (scan_string r).
Proof. destruct c as [[] [] [] [] [] [] [] []]; reflexivity. Qed.

Lemma scan_escape (s r : string) :
  scan_string (escape s ++ String quote r) = Some (s, r).
Proof.
  induction s as [|c s IH]; [reflexivity|].
  cbn [escape]. rewrite append_assoc, scan_escape_char, IH. reflexivity.
Qed.

Lemma encode_string_app (s rest : string) :
  encode_string s ++ rest = String quote (escape s ++ String quote rest).
Proof. unfold encode_string. cbn [append]. now rewrite append_assoc. Qed.

Lemma skip_ws_spaces (n : nat) (s : string) : skip_ws (spaces n ++ s) = skip_ws s.
Proof. induction n as [|n IH]; [reflexivity | exact IH]. Qed.

Lemma skip_ws_newline_indent (level : nat) (s : string) :
  skip_ws (newline_indent level ++ s) = skip_ws s.
Proof. unfold newline_indent. cbn [append]. apply skip_ws_spaces. Qed.

Lemma skip_ws_encode_string (s rest : string) :
  skip_ws (encode_string s ++ rest) = encode_string s ++ rest.
Proof. rewrite encode_string_app. reflexivity. Qed.

Lemma parse_value_string (fuel : nat) (s rest : string) :
  parse_value (S fuel) (encode_string s ++ rest) = Some (JString s, rest).
Proof.
  rewrite encode_string_app. cbn [parse_value].
  change (Ascii.eqb quote quote) with true. cbv iota.
  now rewrite scan_escape.
Qed.

(** One member of an object: the key, the colon, the value, and then
    either the end of the object or the next member. *)
Lemma parse_members_step (f : nat) (k Y : string) (acc : list (string * value)) :
  skip_ws Y = Y ->
  parse_members (S f) (encode_string k ++ ": " ++ Y) acc
  = match parse_value f Y with
    | Some (v, rest2) =>
        match skip_ws rest2 with
        | String "}" rest3 => Some (dict_set acc k v, rest3)
        | String "," rest3 => parse_members f (skip_ws rest3) (dict_set acc k v)
        | _ => None
        end
    | None => None
    end.
Proof.
  intros HY. rewrite encode_string_app. simpl. rewrite scan_escape. simpl.
  rewrite HY. reflexivity.
Qed.

(** One item of an array, and then either its end or the next item. *)
Lemma parse_items_step (f : nat) (Y : string) (acc : list value) :
  parse_items (S f) Y acc
  = match parse_value f Y with
    | Some (v, rest) =>
        match skip_ws rest with
        | String "]" rest1 => Some ((acc ++ [v])%list, rest1)
        | String "," rest1 => parse_items f (skip_ws rest1) (acc ++ [v])%list
        | _ => None
        end
    | None => None
    end.
Proof. reflexivity. Qed.

Lemma skip_ws_join_pairs (sep : string) (kvs : list (string * string)) (rest : string) :
  kvs <> [] ->
  skip_ws (PyStr.join sep (map encode_pair kvs) ++ rest)
  = PyStr.join sep (map encode_pair kvs) ++ rest.
Proof.
  destruct kvs as [|kv kvs]; [congruence|]. intros _.
  destruct kvs; cbn [map PyStr.join]; unfold encode_pair;
    rewrite !append_assoc; apply skip_ws_encode_string.
Qed.

(** The members of a dict of strings, as [json.dump] lays them out, are
    read back one by one. *)
Lemma parse_members_pairs (lvl lvl' : nat) (kvs : list (string * string)) :
  forall (acc : list (string * value)) (fuel : nat) (rest : string),
    kvs <> [] -> List.length kvs < fuel ->
    parse_members fuel
      (PyStr.join ("," ++ newline_indent lvl) (map encode_pair kvs)
       ++ newline_indent lvl' ++ String "}" rest) acc
    = Some (fold_left set_pair kvs acc, rest).
Proof.
  induction kvs as [|[k v] kvs IH]; intros acc fuel rest Hne Hf; [congruence|].
  destruct fuel as [|fuel]; [lia|]. simpl in Hf.
  destruct fuel as [|fuel]; [lia|].
  destruct kvs as [|kv' kvs'].
  - cbn [map PyStr.join fold_left]. unfold encode_pair at 1. cbn [fst snd].
    rewrite !append_assoc.
    rewrite parse_members_step by apply skip_ws_encode_string.
    rewrite parse_value_string, skip_ws_newline_indent. reflexivity.
  - change (PyStr.join ("," ++ newline_indent lvl) (map encode_pair ((k, v) :: kv' :: kvs')))
      with (encode_pair (k, v) ++ ("," ++ newline_indent lvl)
            ++ PyStr.join ("," ++ newline_indent lvl) (map encode_pair (kv' :: kvs'))).
    unfold encode_pair at 1. cbn [fst snd fold_left].
    rewrite !append_assoc.
    rewrite parse_members_step by apply skip_ws_encode_string.
    rewrite parse_value_string.
    change (skip_ws ("," ++ ?x)) with (String "," x).
    cbv iota.
    rewrite skip_ws_newline_indent, skip_ws_join_pairs by discriminate.
    apply IH; [discriminate | simpl in *; lia].
Qed.

Lemma json_of_people_objects (data : list person) :
  json_of_people data = JArray (map object_of data).
Proof. reflexivity. Qed.

Lemma encode_object_unfold (lvl : nat) (m : string * value)
  (ms : list (string * value)) :
  encode lvl (JObject (m :: ms))
  = "{" ++ newline_indent (S lvl)
    ++ PyStr.join ("," ++ newline_indent (S lvl))
         (map (fun kv => encode_string (fst kv) ++ ": " ++ encode (S lvl) (snd kv))
              (m :: ms))
    ++ newline_indent lvl ++ "}".
Proof. reflexivity. Qed.

Lemma map_encode_members (lvl : nat) (kvs : list (string * string)) :
  map (fun kv => encode_string (fst kv) ++ ": " ++ encode lvl (snd kv))
    (map member_of kvs)
  = map encode_pair kvs.
Proof. rewrite map_map. reflexivity. Qed.

Lemma encode_dict (lvl : nat) (kv : string * string) (kvs : list (string * string))
  (rest : string) :
  encode lvl (JObject (map member_of (kv :: kvs))) ++ rest
  = String "{" (newline_indent (S lvl)
      ++ PyStr.join ("," ++ newline_indent (S lvl)) (map encode_pair (kv :: kvs))
      ++ newline_indent lvl ++ String "}" rest).
Proof.
  change (map member_of (kv :: kvs)) with (member_of kv :: map member_of kvs).
  rewrite encode_object_unfold.
  change (member_of kv :: map member_of kvs) with (map member_of (kv :: kvs)).
  rewrite map_encode_members, !append_assoc. reflexivity.
Qed.

Lemma join_pairs_head (sep : string) (kv : string * string)
  (kvs : list (string * string)) (rest : string) :
  exists W,
    PyStr.join sep (map encode_pair (kv :: kvs)) ++ rest
    = String (Ascii false true false false false true false false) W.
Proof.
  destruct kv as [k v].
  destruct kvs; cbn [map PyStr.join]; unfold encode_pair at 1;
    rewrite !append_assoc, encode_string_app; eexists; reflexivity.
Qed.

Lemma parse_value_dict (lvl fuel : nat) (kvs : list (string * string)) (rest : string) :
  kvs <> [] -> S (List.length kvs) < fuel ->
  parse_value fuel (encode lvl (JObject (map member_of kvs)) ++ rest)
  = Some (JObject (fold_left set_pair kvs []), rest).
Proof.
  intros Hne Hf. destruct kvs as [|kv kvs]; [congruence|].
  destruct fuel as [|fuel]; [lia|].
  rewrite encode_dict. cbn [parse_value].
  change (Ascii.eqb "{" quote) with false.
  change (Ascii.eqb "{" "[") with false.
  change (Ascii.eqb "{" "{") with true. cbv iota.
  rewrite skip_ws_newline_indent, skip_ws_join_pairs by discriminate.
  destruct (join_pairs_head ("," ++ newline_indent (S lvl)) kv kvs
              (newline_indent lvl ++ String "}" rest)) as [W HW].
  rewrite HW. cbv iota. rewrite <- HW.
  rewrite parse_members_pairs by (try discriminate; simpl in *; lia).
  reflexivity.
Qed.

Lemma parse_value_person (lvl fuel : nat) (p : person) (rest : string) :
  6 < fuel ->
  parse_value fuel (encode lvl (object_of p) ++ rest) = Some (object_of p, rest).
Proof.
  intros Hf. unfold object_of.
  rewrite parse_value_dict by (try discriminate; simpl; lia). reflexivity.
Qed.

Lemma skip_ws_person (lvl : nat) (p : person) (rest : string) :
  skip_ws (encode lvl (object_of p) ++ rest) = encode lvl (object_of p) ++ rest.
Proof. unfold object_of, to_dict. rewrite encode_dict. reflexivity. Qed.

Lemma skip_ws_join_people (sep : string) (data : list person) (rest : string) :
  data <> [] ->
  skip_ws (PyStr.join sep (map (encode 1) (map object_of data)) ++ rest)
  = PyStr.join sep (map (encode 1) (map object_of data)) ++ rest.
Proof.
  destruct data as [|p data]; [congruence|]. intros _.
  destruct data; cbn [map PyStr.join]; rewrite ?append_assoc; apply skip_ws_person.
Qed.

(** The items of a non-empty array of people, as [json.dump] lays them
    out, are read back one by one. *)
Lemma parse_items_people (data : list person) :
  forall (acc : list value) (fuel : nat) (rest : string),
    data <> [] -> List.length data + 6 < fuel ->
    parse_items fuel
      (PyStr.join ("," ++ newline_indent 1) (map (encode 1) (map object_of data))
       ++ newline_indent 0 ++ String "]" rest) acc
    = Some ((acc ++ map object_of data)%list, rest).
Proof.
  induction data as [|p data IH]; intros acc fuel rest Hne Hf; [congruence|].
  destruct fuel as [|fuel]; [lia|]. simpl in Hf.
  rewrite parse_items_step.
  destruct data as [|q data'].
  - cbn [map PyStr.join].
    rewrite parse_value_person by lia. reflexivity.
  - change (PyStr.join ("," ++ newline_indent 1)
              (map (encode 1) (map object_of (p :: q :: data'))))
      with (encode 1 (object_of p) ++ ("," ++ newline_indent 1)
            ++ PyStr.join ("," ++ newline_indent 1)
                 (map (encode 1) (map object_of (q :: data')))).
    rewrite !append_assoc.
    rewrite parse_value_person by (simpl in *; lia).
    change (skip_ws ("," ++ ?x)) with (String "," x). cbv iota.
    rewrite skip_ws_newline_indent, skip_ws_join_people by discriminate.
    rewrite IH by (try discriminate; simpl in *; lia).
    now rewrite <- app_assoc.
Qed.

Lemma length_join_people (sep : string) (data : list person) :
  6 * List.length data
  <= String.length (PyStr.join sep (map (encode 1) (map object_of data))).
Proof.
  induction data as [|p data IH]; [simpl; lia|].
  assert (Hp : forall rest, 6 + String.length rest
                            <= String.length (encode 1 (object_of p) ++ rest)).
  { intros rest. unfold object_of, to_dict. rewrite encode_dict.
    cbn [String.length newline_indent Nat.mul Nat.add spaces append].
    rewrite !length_app. cbn [String.length]. lia. }
  destruct data as [|q data'].
  - cbn [map PyStr.join]. specialize (Hp ""). rewrite append_empty_r in Hp.
    simpl in *. lia.
  - change (PyStr.join sep (map (encode 1) (map object_of (p :: q :: data'))))
      with (encode 1 (object_of p) ++ sep
            ++ PyStr.join sep (map (encode 1) (map object_of (q :: data')))).
    specialize (Hp (sep ++ PyStr.join sep (map (encode 1) (map object_of (q :: data'))))).
    rewrite length_app in Hp. cbn [List.length] in *. lia.
Qed.

Lemma join_people_head (sep : string) (p : person) (data : list person)
  (rest : string) :
  exists W,
    PyStr.join sep (map (encode 1) (map object_of (p :: data))) ++ rest
    = String "{" W.
Proof.
  destruct data; cbn [map PyStr.join]; rewrite ?append_assoc;
    unfold object_of, to_dict; rewrite encode_dict; eexists; reflexivity.
Qed.

(** What [save_to_json] writes is read back as the array of the records'
    objects. *)
Lemma loads_save_to_json (data : list person) :
  loads (save_to_json data) = Some (JArray (map object_of data)).
Proof.
  unfold save_to_json, dumps. rewrite json_of_people_objects.
  destruct data as [|p data]; [reflexivity|].
  unfold loads.
  assert (Ht : encode 0 (JArray (map object_of (p :: data)))
               = String "[" (newline_indent 1
                   ++ PyStr.join ("," ++ newline_indent 1)
                        (map (encode 1) (map object_of (p :: data)))
                   ++ newline_indent 0 ++ String "]" "")).
  { reflexivity. }
  rewrite Ht. cbn [skip_ws]. change (is_ws "[") with false. cbv iota.
  cbn [parse_value String.length].
  change (Ascii.eqb "[" quote) with false.
  change (Ascii.eqb "[" "[") with true. cbv iota.
  rewrite skip_ws_newline_indent.
  rewrite skip_ws_join_people by discriminate.
  destruct (join_people_head ("," ++ newline_indent 1) p data
              (newline_indent 0 ++ String "]" "")) as [W HW].
  rewrite HW at 1. cbv iota. rewrite <- HW.
  rewrite parse_items_people.
  - reflexivity.
  - discriminate.
  - rewrite !length_app.
    pose proof (length_join_people ("," ++ newline_indent 1) (p :: data)).
    cbn [List.length String.length] in *. lia.
Qed.

Lemma rows_of_objects (data : list person) :
  rows_of_items (map object_of data) = Some (map to_dict data).
Proof.
  induction data as [|p data IH]; [reflexivity|].
  cbn [map rows_of_items]. unfold object_of at 1. rewrite IH. reflexivity.
Qed.

End JsonFacts.

(** C8: writing any list of records with [save_to_json] and loading the
    file back with the dashboard's loader gives one row per record, in the
    same order, each row holding under the record's keys the very values of
    [name], [honorific], [profile_url], [title] and [category] (a row
    determines its record). *)
Theorem json_round_trip (data : list person) :
  load_data (save_to_json data) = Some (map to_dict data)
  /\ List.length (map to_dict data) = List.length data
  /\ (forall p q, to_dict p = to_dict q -> p = q).
Proof.
  split; [|split].
  - unfold load_data. rewrite JsonFacts.loads_save_to_json.
    apply JsonFacts.rows_of_objects.
  - apply length_map.
  - intros [n1 h1 u1 t1 c1] [n2 h2 u2 t2 c2]. unfold to_dict. simpl.
    intros [= -> -> -> -> ->]. reflexivity.
Qed.

(** ** The claims on sample pages *)

Lemma category_forward_scan_witness :
  extract_people_data Samples.sectioned None
  = (Notions.records (Notions.running [] "General")
     ++ Notions.records
          (map (fun c' => (c', "Academic staff"))
             [Samples.sectioned_card 0; Samples.sectioned_card 1])
     ++ Notions.records
          (Notions.running [Samples.sectioned_card 2; Samples.sectioned_card 3]
             "Academic staff"))%list
  /\ (exists t,
        extract_people_data Samples.sectioned None
        = (Notions.records
             (Notions.running [Samples.sectioned_card 0; Samples.sectioned_card 1]
                "General")
           ++ Notions.records
                (map (fun c' => (c', t))
                   [Samples.sectioned_card 2; Samples.sectioned_card 3])
           ++ Notions.records (Notions.running [] t))%list)
  /\ map category (extract_people_data Samples.sectioned None)
     = ["Academic staff"; "Academic staff"; "Professional staff"; "Professional staff"].
Proof.
  split; [|split].
  - apply (proj1 category_forward_scan Samples.sectioned None []
             (Samples.sectioned_card 0) [Samples.sectioned_card 1]
             [Samples.sectioned_card 2; Samples.sectioned_card 3] "Academic staff").
    + reflexivity.
    + reflexivity.
    + constructor; [right; reflexivity | constructor].
  - apply (proj1 (proj2 category_forward_scan) Samples.sectioned None
             [Samples.sectioned_card 0; Samples.sectioned_card 1]
             (Samples.sectioned_card 2) [Samples.sectioned_card 3] []).
    + reflexivity.
    + constructor; [reflexivity | constructor].
  - apply (proj2 (proj2 category_forward_scan) Samples.sectioned
             (Samples.sectioned_card 0) (Samples.sectioned_card 1)
             (Samples.sectioned_card 2) (Samples.sectioned_card 3)
             (Samples.heading "academic" "Academic staff")
             (Samples.heading "professional" "Professional staff")).
    + reflexivity.
    + repeat constructor.
    + reflexivity.
    + reflexivity.
    + reflexivity.
    + right. exists (Samples.heading "footer" "Site footer"). split; reflexivity.
    + reflexivity.
    + reflexivity.
Defined.

Lemma subpage_failure_skipped_witness :
  scrape_category string false Samples.site Samples.no_browser
    (effective_selenium false true) [Samples.jane]
    ("Research Fellows", "https://cis.unimelb.edu.au/people/fellows")
    [HttpGet "https://cis.unimelb.edu.au/people"]
  = (Ok [Samples.jane],
     [HttpGet "https://cis.unimelb.edu.au/people";
      HttpGet "https://cis.unimelb.edu.au/people/fellows"])
  /\ exists rest t3 t4,
       scrape_subpages_loop string false Samples.site Samples.no_browser
         (effective_selenium false true)
         [("Students", "https://cis.unimelb.edu.au/people/students")] [Samples.jane]
         [HttpGet "https://cis.unimelb.edu.au/people";
          HttpGet "https://cis.unimelb.edu.au/people/fellows"]
       = (Ok ([Samples.jane] ++ rest)%list, t3)
       /\ main string false Samples.site Samples.no_browser true false true []
          = (Ok ([Samples.jane] ++ rest)%list, t4)
       /\ (([Samples.jane] ++ rest)%list <> [] ->
           t4 = (t3 ++ [WriteJson "people_data.json"
                          (save_to_json ([Samples.jane] ++ rest));
                        WriteCsv "people_data.csv" ([Samples.jane] ++ rest)])%list).
Proof.
  apply (subpage_failure_skipped string false Samples.site Samples.no_browser
           true false [] [HttpGet "https://cis.unimelb.edu.au/people"]
           Samples.landing []
           [("Students", "https://cis.unimelb.edu.au/people/students")]
           "Research Fellows" "https://cis.unimelb.edu.au/people/fellows"
           [Samples.jane] [HttpGet "https://cis.unimelb.edu.au/people"]
           [HttpGet "https://cis.unimelb.edu.au/people";
            HttpGet "https://cis.unimelb.edu.au/people/fellows"]
           (FetchFailure "404 Not Found"));
    reflexivity.
Defined.

Lemma landing_page_fallback_witness :
  fetch_main_page string true Samples.site_down Samples.flaky_browser false false []
  = (Ok Samples.landing,
     [HttpGet "https://cis.unimelb.edu.au/people";
      BrowserGet "https://cis.unimelb.edu.au/people";
      BrowserGet "https://cis.unimelb.edu.au/people"]).
Proof.
  exact (proj1 (proj2 (landing_page_fallback string true Samples.site_down
                         Samples.flaky_browser false [] "503 Service Unavailable"
                         eq_refl))
           eq_refl).
Defined.

(** C7 as stated fails when plain HTTP is asked for, the fallback is
    available and both strategies fail: the fallback is tried twice, not
    once, before the failure propagates. *)
Lemma landing_page_fallback_counterexample :
  fetch_main_page string true Samples.site_down Samples.no_browser false false []
  = (Raise (FetchFailure "no browser"),
     [HttpGet "https://cis.unimelb.edu.au/people";
      BrowserGet "https://cis.unimelb.edu.au/people";
      BrowserGet "https://cis.unimelb.edu.au/people"])
  /\ Notions.browser_fetches
       (snd (fetch_main_page string true Samples.site_down Samples.no_browser
               false false [])) <> 1.
Proof. split; [reflexivity | discriminate]. Qed.

(** * Further properties *)

(** ** The name splitter, for every input *)

Section SplitterFacts.
Import PyStr Notions PyStrFacts StripFacts.

Lemma match_honorific_in (hs : list string) (f nm h : string) :
  match_honorific hs f = Some (nm, h) -> In h hs.
Proof.
  induction hs as [|x hs IH]; simpl; [discriminate|].
  destruct (startswith f (x ++ " ")).
  - intros [= _ <-]. now left.
  - intros H. right. now apply IH.
Qed.

Lemma match_honorific_none_inv (hs : list string) (f : string) :
  match_honorific hs f = None ->
  forall h, In h hs -> startswith f (h ++ " ") = false.
Proof.
  induction hs as [|x hs IH]; simpl; [intros _ h []|].
  destruct (startswith f (x ++ " ")) eqn:E; [discriminate|].
  intros H h [<- | Hh]; [assumption | now apply IH].
Qed.

(** A name that starts with a listed prefix and a space is split at that
    prefix by the loop over the source list, wherever the prefix stands in
    the list: no two entries followed by a space start the same string. *)
Lemma match_honorific_found (h f : string) :
  In h honorifics -> startswith f (h ++ " ") = true ->
  match_honorific honorifics f
  = Some (strip (slice_from (String.length h) f), h).
Proof.
  intros Hin Hp. destruct (prefix_split _ _ Hp) as [rest ->].
  rewrite append_assoc. rewrite slice_from_app.
  change (" " ++ rest) with (String " " rest). rewrite strip_after_space.
  now apply match_honorific_prefixed.
Qed.

Lemma parse_strip (s : string) :
  parse_name_and_honorific (strip s) = parse_name_and_honorific s.
Proof. unfold parse_name_and_honorific. now rewrite strip_idem. Qed.

Lemma parse_shape (full_name : string) :
  (snd (parse_name_and_honorific full_name) = ""
   \/ In (snd (parse_name_and_honorific full_name)) honorifics)
  /\ strip (fst (parse_name_and_honorific full_name))
     = fst (parse_name_and_honorific full_name).
Proof.
  unfold parse_name_and_honorific.
  destruct (match_honorific honorifics (strip full_name)) as [[nm h]|] eqn:E;
    cbn [fst snd].
  - split; [right; eapply match_honorific_in; exact E|].
    apply match_honorific_some in E as [_ ->]. apply strip_idem.
  - split; [now left | apply strip_idem].
Qed.

End SplitterFacts.

(** X1: whatever the input, the honorific returned is empty or one of the
    eight listed prefixes, the name returned has no whitespace at either
    end, and whitespace around the input changes nothing. *)
Theorem parse_name_and_honorific_shape (full_name : string) :
  (snd (parse_name_and_honorific full_name) = ""
   \/ In (snd (parse_name_and_honorific full_name)) honorifics)
  /\ PyStr.strip (fst (parse_name_and_honorific full_name))
     = fst (parse_name_and_honorific full_name)
  /\ parse_name_and_honorific (PyStr.strip full_name)
     = parse_name_and_honorific full_name.
Proof.
  destruct (parse_shape full_name) as [Hh Hn].
  split; [exact Hh|]. split; [exact Hn|]. apply parse_strip.
Qed.

(** X2: the order of the prefix list does not matter.  Looping over any
    list with the same entries (for one, the longest-first order) gives the
    result of [parse_name_and_honorific]. *)
Theorem parse_name_and_honorific_any_order (hs : list string) (full_name : string) :
  (forall h, In h hs <-> In h honorifics) ->
  match match_honorific hs (PyStr.strip full_name) with
  | Some r => r
  | None => (PyStr.strip full_name, "")
  end = parse_name_and_honorific full_name.
Proof.
  intros Hsame. unfold parse_name_and_honorific.
  destruct (match_honorific hs (PyStr.strip full_name)) as [[nm h]|] eqn:E.
  - pose proof (match_honorific_in _ _ _ _ E) as Hin.
    apply match_honorific_some in E as [Hp ->].
    now rewrite (match_honorific_found h _ (proj1 (Hsame h) Hin) Hp).
  - rewrite match_honorific_none; [reflexivity|].
    intros h Hh. eapply match_honorific_none_inv; [exact E|]. now apply Hsame.
Qed.

Lemma parse_name_and_honorific_any_order_witness :
  match match_honorific
          ["Assoc Prof"; "A/Prof"; "Prof"; "Dr"; "Mrs"; "Ms"; "Mr"; "Miss"]
          (PyStr.strip " Mrs Ada King ") with
  | Some r => r
  | None => (PyStr.strip " Mrs Ada King ", "")
  end = parse_name_and_honorific " Mrs Ada King ".
Proof.
  apply (parse_name_and_honorific_any_order
           ["Assoc Prof"; "A/Prof"; "Prof"; "Dr"; "Mrs"; "Ms"; "Mr"; "Miss"]).
  intros h. simpl. tauto.
Defined.

(** X3: the name returned is empty exactly when the input consists of
    whitespace only; a lone prefix such as "Dr" is kept as the name. *)
Theorem parse_name_and_honorific_empty_name (full_name : string) :
  fst (parse_name_and_honorific full_name) = "" <-> Notions.blank full_name = true.
Proof.
  rewrite <- parse_strip.
  rewrite (parse_name_empty_iff _ (StripFacts.strip_idem full_name)).
  apply StripFacts.strip_empty_iff.
Qed.

(** ** Well-formed records *)

Section RecordFacts.
Import Notions.

Lemma records_Forall (P : person -> Prop) (l : list (Soup.located * string)) :
  (forall c cat p, In (c, cat) l -> card_person (Soup.here c) cat = Some p -> P p) ->
  Forall P (records l).
Proof.
  induction l as [|[c cat] l IH]; intros H; [constructor|].
  unfold records. cbn [flat_map fst snd].
  apply Forall_app. split.
  - destruct (card_person (Soup.here c) cat) as [p|] eqn:E; [|constructor].
    constructor; [|constructor]. apply (H c cat p); [now left | assumption].
  - apply IH. intros c' cat' p' Hin. apply H. now right.
Qed.

Lemma extract_people_data_Forall (P : person -> Prop) (s : soup)
  (dc : option string) :
  (forall c cat p, card_person (Soup.here c) cat = Some p -> P p) ->
  Forall P (extract_people_data s dc).
Proof.
  intros H. rewrite extract_people_data_running. apply records_Forall.
  intros c cat p _. apply H.
Qed.

Lemma card_person_category (card : node) (cat : string) (p : person) :
  card_person card cat = Some p -> category p = cat.
Proof.
  unfold card_person.
  destruct (Soup.find card is_card_header) as [header|]; [|discriminate].
  destruct (Soup.find header (Soup.is_tag "a"));
    destruct (parse_name_and_honorific _); intros [= <-]; reflexivity.
Qed.

Lemma initial_category_nonempty (dc : option string) : initial_category dc <> "".
Proof. destruct dc as [[|c d]|]; simpl; discriminate. Qed.

Lemma update_category_nonempty (card : Soup.located) (cat : string) :
  cat <> "" -> update_category card cat <> "".
Proof.
  intros Hc. unfold update_category.
  destruct (Soup.find_previous card is_section_header) as [h|]; [|assumption].
  unfold qualifying. destruct (Soup.get_text_strip h); simpl; [assumption|].
  destruct (negb _); [discriminate | assumption].
Qed.

Lemma running_nonempty (cards : list Soup.located) (cat : string) :
  cat <> "" -> Forall (fun cc => snd cc <> "") (running cards cat).
Proof.
  revert cat. induction cards as [|c cards IH]; intros cat Hc; [constructor|].
  cbn [running]. pose proof (update_category_nonempty c cat Hc) as Hu.
  constructor; [exact Hu | now apply IH].
Qed.

End RecordFacts.

(** X4: no record has an empty category: the running category starts as
    the default or "General" and is only replaced by a non-empty header
    text. *)
Theorem extract_people_data_category_nonempty (s : soup) (dc : option string) :
  Forall (fun p => category p <> "") (extract_people_data s dc).
Proof.
  rewrite extract_people_data_running. apply records_Forall.
  intros c cat p Hin Hp. rewrite (card_person_category _ _ _ Hp).
  pose proof (running_nonempty (Soup.find_all s is_card) _
                (initial_category_nonempty dc)) as H.
  rewrite Forall_forall in H. exact (H _ Hin).
Qed.

Section CardFacts.

Lemma card_person_profile_url (card : node) (cat : string) (p : person) :
  card_person card cat = Some p ->
  (profile_url p = "N/A" \/ PyStr.startswith (profile_url p) "http" = true)
  /\ profile_url p <> "".
Proof.
  unfold card_person.
  destruct (Soup.find card is_card_header) as [header|]; [|discriminate].
  destruct (Soup.find header (Soup.is_tag "a")) as [name_link|];
    destruct (parse_name_and_honorific _); intros [= <-]; simpl;
    [|split; [now left | discriminate]].
  unfold profile_url_of.
  destruct (PyStr.startswith (Soup.get_default name_link "href" "") "http") eqn:E1.
  - split; [now right|]. intros H. rewrite H in E1. discriminate.
  - destruct (PyStr.startswith _ "/"); split; try (right; reflexivity); discriminate.
Qed.

Lemma card_person_name_shape (card : node) (cat : string) (p : person) :
  card_person card cat = Some p ->
  PyStr.strip (name p) = name p
  /\ (honorific p = "" \/ In (honorific p) honorifics).
Proof.
  unfold card_person.
  destruct (Soup.find card is_card_header) as [header|]; [|discriminate].
  destruct (Soup.find header (Soup.is_tag "a")) as [name_link|];
    match goal with
    | |- context [parse_name_and_honorific ?f] =>
        pose proof (parse_shape f) as [Hh Hn];
        destruct (parse_name_and_honorific f)
    end; intros [= <-]; cbn [fst snd name honorific] in *; auto.
Qed.

Lemma running_category_nonempty (s : soup) (dc : option string)
  (c : Soup.located) (cat : string) :
  In (c, cat) (Notions.running (Soup.find_all s is_card) (initial_category dc)) ->
  cat <> "".
Proof.
  intros Hin.
  pose proof (running_nonempty (Soup.find_all s is_card) _
                (initial_category_nonempty dc)) as H.
  rewrite Forall_forall in H. exact (H _ Hin).
Qed.

(** Every record of the extractor is well formed. *)
Lemma extract_people_data_well_formed (s : soup) (dc : option string) :
  Forall Runs.well_formed (extract_people_data s dc).
Proof.
  rewrite extract_people_data_running. apply records_Forall.
  intros c cat p Hin Hp. unfold Runs.well_formed.
  rewrite (card_person_category _ _ _ Hp).
  destruct (card_person_name_shape _ _ _ Hp) as [Hn Hh].
  destruct (card_person_profile_url _ _ _ Hp) as [Hu _].
  split; [eapply running_category_nonempty; exact Hin | auto].
Qed.

End CardFacts.

(** X5: the profile URL of every record is the sentinel "N/A" or begins
    with "http"; it is never empty. *)
Theorem extract_people_data_profile_url (s : soup) (dc : option string) :
  Forall (fun p => (profile_url p = "N/A"
                    \/ PyStr.startswith (profile_url p) "http" = true)
                   /\ profile_url p <> "")
    (extract_people_data s dc).
Proof.
  apply extract_people_data_Forall. intros c cat p Hp.
  exact (card_person_profile_url _ _ _ Hp).
Qed.

(** X6: in every record the name has no whitespace at either end and the
    honorific is empty or one of the eight listed prefixes. *)
Theorem extract_people_data_name_shape (s : soup) (dc : option string) :
  Forall (fun p => PyStr.strip (name p) = name p
                   /\ (honorific p = "" \/ In (honorific p) honorifics))
    (extract_people_data s dc).
Proof.
  apply extract_people_data_Forall. intros c cat p Hp.
  exact (card_person_name_shape _ _ _ Hp).
Qed.

Section DefaultCategory.
Import Notions.

Lemma running_unchanged (cards : list Soup.located) (cat : string) :
  Forall (fun c => section_category c = None) cards ->
  running cards cat = map (fun c => (c, cat)) cards.
Proof.
  intros H. rewrite <- (app_nil_r cards) at 1.
  rewrite running_kept; [now rewrite app_nil_r|].
  eapply Forall_impl; [|exact H]. intros c Hc. now left.
Qed.

End DefaultCategory.

(** X7: on a page where no card has a qualifying section header before it,
    every record gets the default category given by the caller, or
    "General" when none (or the empty string) is given. *)
Theorem extract_people_data_default_category (s : soup) (dc : option string) :
  Forall (fun c => Notions.section_category c = None) (Soup.find_all s is_card) ->
  Forall (fun p => category p = initial_category dc) (extract_people_data s dc).
Proof.
  intros H. rewrite extract_people_data_running, (running_unchanged _ _ H).
  apply records_Forall. intros c cat p Hin Hp.
  apply in_map_iff in Hin as (c' & [= _ <-] & _).
  exact (card_person_category _ _ _ Hp).
Qed.

Lemma extract_people_data_default_category_witness :
  Forall (fun p => category p = "Research Fellows")
    (extract_people_data Samples.students (Some "Research Fellows")).
Proof.
  apply (extract_people_data_default_category Samples.students
           (Some "Research Fellows")).
  repeat constructor.
Defined.

(** ** The category link finder *)

Section LinkFacts.
Import PyStr.

Lemma rstrip_char_snoc (ch : ascii) (s : string) :
  rstrip_char ch (s ++ String ch "") = rstrip_char ch s.
Proof.
  induction s as [|c s IH]; simpl.
  - now rewrite Ascii.eqb_refl.
  - now rewrite IH.
Qed.

Lemma startswith_app (a b p : string) :
  startswith a p = true -> startswith (a ++ b) p = true.
Proof.
  revert a. induction p as [|x p IH]; intros a H; [destruct a, b; reflexivity|].
  destruct a as [|y a]; simpl in *; [discriminate|].
  apply andb_prop in H as [-> H]. now rewrite (IH a H).
Qed.

(** Stripping slashes off the end of a base that begins with "http" leaves
    the "http" in place. *)
Lemma rstrip_char_http (base : string) :
  startswith base "http" = true ->
  startswith (rstrip_char "/" base) "http" = true.
Proof.
  intros H. destruct (StripFacts.prefix_split _ _ H) as [r ->].
  cbn [append rstrip_char]. destruct (rstrip_char "/" r); reflexivity.
Qed.

Lemma category_url_of_http (base href : string) :
  startswith base "http" = true ->
  startswith (category_url_of base href) "http" = true.
Proof.
  intros Hb. pose proof (rstrip_char_http base Hb) as Hr.
  unfold category_url_of.
  destruct (startswith href "/"); [now apply startswith_app|].
  destruct (startswith href "http") eqn:E; [exact E | now apply startswith_app].
Qed.

End LinkFacts.

(** X8: when the base URL begins with "http", every URL returned by
    [find_category_links] begins with "http". *)
Theorem find_category_links_absolute (s : soup) (base_url : string) :
  PyStr.startswith base_url "http" = true ->
  Forall (fun link => PyStr.startswith (snd link) "http" = true)
    (find_category_links s base_url).
Proof.
  intros Hb. unfold find_category_links.
  apply Forall_flat_map, Forall_forall. intros pathfinder _.
  apply Forall_flat_map, Forall_forall. intros link _.
  destruct (Soup.find link (Soup.is_tag "h3")); [|constructor].
  constructor; [|constructor]. now apply category_url_of_http.
Qed.

Lemma find_category_links_absolute_witness :
  Forall (fun link => PyStr.startswith (snd link) "http" = true)
    (find_category_links Samples.landing "https://cis.unimelb.edu.au").
Proof.
  apply (find_category_links_absolute Samples.landing "https://cis.unimelb.edu.au").
  reflexivity.
Defined.

(** X9: a slash at the end of the base URL makes no difference to the
    links found. *)
Theorem find_category_links_trailing_slash (s : soup) (base_url : string) :
  find_category_links s (base_url ++ "/") = find_category_links s base_url.
Proof.
  unfold find_category_links, category_url_of.
  now rewrite rstrip_char_snoc.
Qed.

(** ** Events of a run *)

Section AddsFacts.

Variable failure : Type.
Variable P : event -> bool.

Lemma adds_ret {A : Type} (a : A) : Runs.adds P (ret failure a).
Proof. intros t. exists []. now rewrite app_nil_r. Qed.

Lemma adds_raise {A : Type} (e : exn failure) : Runs.adds P (@raise failure A e).
Proof. intros t. exists []. now rewrite app_nil_r. Qed.

Lemma adds_emit (e : event) : P e = true -> Runs.adds P (emit failure e).
Proof. intros He t. exists [e]. simpl. now rewrite He. Qed.

Lemma adds_bind {A B : Type} (m : io failure A) (k : A -> io failure B) :
  Runs.adds P m -> (forall a, Runs.adds P (k a)) -> Runs.adds P (bind failure m k).
Proof.
  intros Hm Hk t. unfold bind. destruct (Hm t) as (e1 & H1 & P1).
  destruct (m t) as [[a|e] t1]; simpl in H1; subst t1.
  - destruct (Hk a (t ++ e1)%list) as (e2 & H2 & P2).
    exists (e1 ++ e2)%list. rewrite H2, app_assoc, forallb_app, P1, P2. auto.
  - exists e1. auto.
Qed.

Lemma adds_try {A : Type} (m : io failure A) (h : exn failure -> io failure A) :
  Runs.adds P m -> (forall e, Runs.adds P (h e)) ->
  Runs.adds P (try_except failure m h).
Proof.
  intros Hm Hh t. unfold try_except. destruct (Hm t) as (e1 & H1 & P1).
  destruct (m t) as [[a|e] t1]; simpl in H1; subst t1.
  - exists e1. auto.
  - destruct (Hh e (t ++ e1)%list) as (e2 & H2 & P2).
    exists (e1 ++ e2)%list. rewrite H2, app_assoc, forallb_app, P1, P2. auto.
Qed.

Lemma adds_persist (all_people : list person) :
  (forall f x, P (WriteJson f x) = true) ->
  (forall f rows, P (WriteCsv f rows) = true) ->
  Runs.adds P (persist failure all_people).
Proof.
  intros Hj Hc. destruct all_people; [apply adds_ret|].
  unfold persist. apply adds_bind; [now apply adds_emit|].
  intros _. now apply adds_emit.
Qed.

End AddsFacts.

Section RunFacts.

Variable failure : Type.
Variable SELENIUM_AVAILABLE : bool.
Variable requests_get browser_get : trace -> string -> failure + soup.

Local Abbreviation fetch_page'' :=
  (fetch_page failure SELENIUM_AVAILABLE requests_get browser_get).
Local Abbreviation fetch_main_page'' :=
  (fetch_main_page failure SELENIUM_AVAILABLE requests_get browser_get).
Local Abbreviation scrape_category'' :=
  (scrape_category failure SELENIUM_AVAILABLE requests_get browser_get).
Local Abbreviation scrape_subpages_loop'' :=
  (scrape_subpages_loop failure SELENIUM_AVAILABLE requests_get browser_get).
Local Abbreviation crawl_from'' :=
  (crawl_from failure SELENIUM_AVAILABLE requests_get browser_get).
Local Abbreviation main'' :=
  (main failure SELENIUM_AVAILABLE requests_get browser_get).

(** The events of [fetch_page]: a plain GET in plain mode only, a browser
    fetch only where Selenium is available. *)
Lemma adds_fetch_page (P : event -> bool) (url : string) (use_selenium : bool) :
  (use_selenium = false -> P (HttpGet url) = true) ->
  (SELENIUM_AVAILABLE = true -> P (BrowserGet url) = true) ->
  Runs.adds P (fetch_page'' url use_selenium).
Proof.
  intros Hh Hb.
  assert (Hs : Runs.adds P (fetch_page_selenium failure SELENIUM_AVAILABLE browser_get url)).
  { unfold fetch_page_selenium. destruct SELENIUM_AVAILABLE; simpl.
    - intros t. exists [BrowserGet url]. simpl. now rewrite Hb.
    - apply adds_raise. }
  unfold fetch_page. destruct use_selenium.
  - destruct SELENIUM_AVAILABLE; simpl; [exact Hs | apply adds_raise].
  - apply adds_try.
    + intros t. exists [HttpGet url]. simpl. now rewrite Hh.
    + intros e. destruct SELENIUM_AVAILABLE; [exact Hs | apply adds_raise].
Qed.

Lemma adds_fetch_main_page (P : event -> bool) (use_selenium save_html : bool) :
  (effective_selenium SELENIUM_AVAILABLE use_selenium = false ->
   P (HttpGet base_url) = true) ->
  (SELENIUM_AVAILABLE = true -> P (BrowserGet base_url) = true) ->
  (forall page, P (WriteHtml "page_source.html" page) = true) ->
  Runs.adds P (fetch_main_page'' use_selenium save_html).
Proof.
  intros Hh Hb Hw. unfold fetch_main_page. apply adds_try.
  - apply adds_bind; [now apply adds_fetch_page|]. intros page.
    apply adds_bind; [|intros _; apply adds_ret].
    destruct save_html; [now apply adds_emit | apply adds_ret].
  - intros e. destruct (negb _ && SELENIUM_AVAILABLE);
      [apply adds_fetch_page; [discriminate | assumption] | apply adds_raise].
Qed.

Lemma adds_scrape_subpages_loop (P : event -> bool) (use_selenium : bool)
  (links : list (string * string)) :
  (use_selenium = false -> forall url, P (HttpGet url) = true) ->
  (SELENIUM_AVAILABLE = true -> forall url, P (BrowserGet url) = true) ->
  P (Sleep 1) = true ->
  forall all_people, Runs.adds P (scrape_subpages_loop'' use_selenium links all_people).
Proof.
  intros Hh Hb Hs. induction links as [|[nm url] links IH]; intros all_people.
  - apply adds_ret.
  - cbn [scrape_subpages_loop]. apply adds_bind; [|exact IH].
    unfold scrape_category. apply adds_try; [|intros e; apply adds_ret].
    apply adds_bind; [apply adds_fetch_page; auto|]. intros page.
    apply adds_bind; [now apply adds_emit | intros _; apply adds_ret].
Qed.

(** The sweep keeps every property that the extractor gives its records. *)
Lemma scrape_subpages_loop_Forall (Q : person -> Prop) (use_selenium : bool)
  (links : list (string * string)) :
  (forall page dc, Forall Q (extract_people_data page dc)) ->
  forall all_people t r t',
    Forall Q all_people ->
    scrape_subpages_loop'' use_selenium links all_people t = (Ok r, t') ->
    Forall Q r.
Proof.
  intros HQ. induction links as [|[nm url] links IH]; intros all_people t r t' Hall.
  - intros [= <- _]. exact Hall.
  - cbn [scrape_subpages_loop]. unfold bind.
    destruct (fetch_page'' url use_selenium t) as [[page|e] t1] eqn:E.
    + erewrite scrape_category_success by exact E.
      apply IH. apply Forall_app. auto.
    + erewrite scrape_category_failure by exact E.
      now apply IH.
Qed.

(** The events of a whole run. *)
Lemma adds_main (P : event -> bool) (use_selenium save_html scrape_subpages : bool) :
  (effective_selenium SELENIUM_AVAILABLE use_selenium = false ->
   forall url, P (HttpGet url) = true) ->
  (SELENIUM_AVAILABLE = true -> forall url, P (BrowserGet url) = true) ->
  P (Sleep 1) = true ->
  (forall f page, P (WriteHtml f page) = true) ->
  (forall f x, P (WriteJson f x) = true) ->
  (forall f rows, P (WriteCsv f rows) = true) ->
  Runs.adds P (main'' use_selenium save_html scrape_subpages).
Proof.
  intros Hh Hb Hs Hw Hj Hc. unfold main. apply adds_bind.
  - apply adds_fetch_main_page; auto.
  - intros page. unfold crawl_from. apply adds_bind.
    + destruct scrape_subpages; [|apply adds_ret].
      apply adds_scrape_subpages_loop; auto.
    + intros all. apply adds_bind; [now apply adds_persist|].
      intros _. apply adds_ret.
Qed.

Lemma main_unfold (use_selenium save_html scrape_subpages : bool) (t : trace) :
  main'' use_selenium save_html scrape_subpages t
  = match fetch_main_page'' use_selenium save_html t with
    | (Ok page, t1) =>
        match (if scrape_subpages
               then scrape_subpages_loop''
                      (effective_selenium SELENIUM_AVAILABLE use_selenium)
                      (find_category_links page "https://cis.unimelb.edu.au")
                      (extract_people_data page None)
               else ret failure (extract_people_data page None)) t1 with
        | (Ok all_people, t2) =>
            (Ok all_people, (t2 ++ Runs.result_events all_people)%list)
        | (Raise e, t2) => (Raise e, t2)
        end
    | (Raise e, t1) => (Raise e, t1)
    end.
Proof.
  unfold main, bind. destruct (fetch_main_page'' use_selenium save_html t) as [[page|e] t1];
    [|reflexivity].
  unfold crawl_from, bind. rewrite app_nil_l.
  match goal with
  | |- context [match ?m t1 with _ => _ end] =>
      destruct (m t1) as [[all_people|e] t2]; [|reflexivity]
  end.
  rewrite persist_events. destruct all_people; [now rewrite app_nil_r | reflexivity].
Qed.

End RunFacts.

(** ** The fetcher and the orchestrator, for every run *)

(** X10: one call of [fetch_page] makes at most one plain GET and at most
    one browser fetch of the URL, in this order; no plain GET when Selenium
    is asked for, no browser fetch when Selenium is not available, and a
    browser fetch in plain mode only after the plain GET has failed.  It
    makes no fetch at all exactly when Selenium is asked for and not
    available, and then raises the ImportError. *)
Theorem fetch_page_attempts (failure : Type) (SELENIUM_AVAILABLE : bool)
  (requests_get browser_get : trace -> string -> failure + soup)
  (url : string) (use_selenium : bool) (t : trace) :
  exists evs,
    snd (fetch_page failure SELENIUM_AVAILABLE requests_get browser_get url
           use_selenium t) = (t ++ evs)%list
    /\ (evs = [] \/ evs = [HttpGet url] \/ evs = [BrowserGet url]
        \/ evs = [HttpGet url; BrowserGet url])
    /\ (use_selenium = true -> ~ In (HttpGet url) evs)
    /\ (SELENIUM_AVAILABLE = false -> ~ In (BrowserGet url) evs)
    /\ (use_selenium = false -> In (BrowserGet url) evs ->
        exists e, requests_get t url = inl e)
    /\ (evs = [] <-> use_selenium = true /\ SELENIUM_AVAILABLE = false)
    /\ (evs = [] ->
        fetch_page failure SELENIUM_AVAILABLE requests_get browser_get url
          use_selenium t = (Raise (selenium_missing failure), t)).
Proof.
  unfold fetch_page, fetch_page_selenium, fetch_page_requests, try_except, raise.
  destruct use_selenium, SELENIUM_AVAILABLE; simpl.
  - exists [BrowserGet url]. simpl. intuition (try discriminate).
  - exists []. rewrite app_nil_r. simpl. intuition (try discriminate).
  - destruct (requests_get t url) as [e|page] eqn:E; simpl.
    + exists [HttpGet url; BrowserGet url]. rewrite <- app_assoc. simpl.
      intuition (try discriminate; eauto).
    + exists [HttpGet url]. simpl. intuition (try discriminate).
  - exists [HttpGet url]. destruct (requests_get t url) as [e|page] eqn:E; simpl;
      intuition (try discriminate).
Qed.

Section AbortFacts.

Variable failure : Type.
Variable SELENIUM_AVAILABLE : bool.
Variable requests_get browser_get : trace -> string -> failure + soup.

(** The landing page fetch fails with a failure of a collaborator, never
    with the ImportError. *)
Lemma fetch_main_page_failure (use_selenium save_html : bool) (t t' : trace)
  (e : exn failure) :
  fetch_main_page failure SELENIUM_AVAILABLE requests_get browser_get
    use_selenium save_html t = (Raise e, t') ->
  exists f, e = FetchFailure f.
Proof.
  unfold fetch_main_page, effective_selenium, fetch_page, fetch_page_selenium,
    fetch_page_requests, try_except, bind, raise, emit, ret.
  destruct use_selenium, SELENIUM_AVAILABLE; simpl;
    repeat match goal with
           | |- context [of_result failure ?r] =>
               destruct r as [?f|?page]; simpl
           | |- context [if save_html then _ else _] => destruct save_html; simpl
           end;
    intros [= <- _] || discriminate || idtac; eauto.
Qed.

End AbortFacts.

(** X11: in a run whose file writes succeed (as this model takes them
    to), a fetch failure aborts [main] only at the landing page: when [main]
    raises, it raises what fetching the landing page raised, a failure of
    one of the two fetch strategies and never the "Selenium not installed"
    ImportError, and no event follows the landing page fetch; no failure of
    a sub-page reaches the caller. *)
Theorem main_aborts_on_landing_page_only (failure : Type)
  (SELENIUM_AVAILABLE : bool)
  (requests_get browser_get : trace -> string -> failure + soup)
  (use_selenium save_html scrape_subpages : bool) (t t' : trace) (e : exn failure) :
  main failure SELENIUM_AVAILABLE requests_get browser_get
    use_selenium save_html scrape_subpages t = (Raise e, t') ->
  fetch_main_page failure SELENIUM_AVAILABLE requests_get browser_get
    use_selenium save_html t = (Raise e, t')
  /\ exists f, e = FetchFailure f.
Proof.
  rewrite main_unfold.
  destruct (fetch_main_page failure SELENIUM_AVAILABLE requests_get browser_get
              use_selenium save_html t) as [[page|e1] t1] eqn:E.
  - destruct scrape_subpages.
    + destruct (scrape_subpages_loop_total failure SELENIUM_AVAILABLE requests_get
                  browser_get (effective_selenium SELENIUM_AVAILABLE use_selenium)
                  (find_category_links page "https://cis.unimelb.edu.au")
                  (extract_people_data page None) t1) as (more & t2 & ->).
      discriminate.
    + discriminate.
  - intros [= <- <-]. split; [reflexivity|].
    eapply fetch_main_page_failure. exact E.
Qed.

Lemma main_aborts_on_landing_page_only_witness :
  fetch_main_page string false Samples.site_down Samples.no_browser true false []
  = (Raise (FetchFailure "503 Service Unavailable"),
     [HttpGet "https://cis.unimelb.edu.au/people"])
  /\ exists f, FetchFailure "503 Service Unavailable" = @FetchFailure string f.
Proof.
  apply (main_aborts_on_landing_page_only string false Samples.site_down
           Samples.no_browser true false true []).
  reflexivity.
Defined.

(** X12: where Selenium is not installed, asking for it makes no
    difference: [main] runs as in plain mode, and no browser is ever
    started. *)
Theorem main_without_selenium (failure : Type)
  (requests_get browser_get : trace -> string -> failure + soup)
  (use_selenium save_html scrape_subpages : bool) (t : trace) :
  main failure false requests_get browser_get use_selenium save_html scrape_subpages t
  = main failure false requests_get browser_get false save_html scrape_subpages t
  /\ exists evs,
       snd (main failure false requests_get browser_get use_selenium save_html
              scrape_subpages t) = (t ++ evs)%list
       /\ forallb (fun e => negb (Runs.is_browser_get e)) evs = true.
Proof.
  split; [now destruct use_selenium|].
  apply (adds_main failure false requests_get browser_get
           (fun e => negb (Runs.is_browser_get e))); auto; discriminate.
Qed.

(** X13: where Selenium is installed and asked for, the whole run goes
    through the browser: no plain GET is ever made. *)
Theorem main_with_selenium (failure : Type)
  (requests_get browser_get : trace -> string -> failure + soup)
  (save_html scrape_subpages : bool) (t : trace) :
  exists evs,
    snd (main failure true requests_get browser_get true save_html
           scrape_subpages t) = (t ++ evs)%list
    /\ forallb (fun e => negb (Runs.is_http_get e)) evs = true.
Proof.
  apply (adds_main failure true requests_get browser_get
           (fun e => negb (Runs.is_http_get e))); auto; discriminate.
Qed.

Section PersistFacts.

Lemma last_json_app (a b : trace) :
  Runs.last_json (a ++ b)%list
  = match Runs.last_json b with
    | Some text => Some text
    | None => Runs.last_json a
    end.
Proof.
  induction a as [|e a IH]; simpl.
  - now destruct (Runs.last_json b).
  - rewrite IH. now destruct (Runs.last_json b).
Qed.

Lemma last_json_none (evs : trace) :
  forallb (fun e => negb (Runs.is_result_write e)) evs = true ->
  Runs.last_json evs = None.
Proof.
  induction evs as [|e evs IH]; simpl; [reflexivity|].
  intros H. apply andb_prop in H as [He H]. rewrite (IH H).
  destruct e; simpl in He; try reflexivity; discriminate.
Qed.

End PersistFacts.

(** X14: a run that returns has written its result at the very end and
    nowhere else.  With an empty result no file is written, so an earlier
    [people_data.json] stays as it was; otherwise the JSON text written
    last is [save_to_json] of exactly the records returned. *)
Theorem main_persists_result (failure : Type) (SELENIUM_AVAILABLE : bool)
  (requests_get browser_get : trace -> string -> failure + soup)
  (use_selenium save_html scrape_subpages : bool) (t t' : trace)
  (all_people : list person) :
  main failure SELENIUM_AVAILABLE requests_get browser_get
    use_selenium save_html scrape_subpages t = (Ok all_people, t') ->
  exists evs,
    t' = (t ++ evs ++ Runs.result_events all_people)%list
    /\ forallb (fun e => negb (Runs.is_result_write e)) evs = true
    /\ (all_people = [] -> Runs.last_json t' = Runs.last_json t)
    /\ (all_people <> [] -> Runs.last_json t' = Some (save_to_json all_people)).
Proof.
  rewrite main_unfold. intros H.
  pose (P := fun e => negb (Runs.is_result_write e)).
  destruct (adds_fetch_main_page failure SELENIUM_AVAILABLE requests_get browser_get
              P use_selenium save_html) with (t := t) as (e1 & H1 & P1); auto.
  destruct (fetch_main_page failure SELENIUM_AVAILABLE requests_get browser_get
              use_selenium save_html t) as [[page|e] t1]; [|discriminate].
  simpl in H1. subst t1.
  assert (Hs : exists e2,
             (if scrape_subpages
              then scrape_subpages_loop failure SELENIUM_AVAILABLE requests_get
                     browser_get (effective_selenium SELENIUM_AVAILABLE use_selenium)
                     (find_category_links page "https://cis.unimelb.edu.au")
                     (extract_people_data page None)
              else ret failure (extract_people_data page None)) (t ++ e1)%list
             = (Ok all_people, ((t ++ e1) ++ e2)%list)
             /\ forallb P e2 = true).
  { destruct scrape_subpages.
    - destruct (adds_scrape_subpages_loop failure SELENIUM_AVAILABLE requests_get
                  browser_get P (effective_selenium SELENIUM_AVAILABLE use_selenium)
                  (find_category_links page "https://cis.unimelb.edu.au"))
        with (all_people := extract_people_data page None) (t := (t ++ e1)%list)
        as (e2 & H2 & P2); auto.
      destruct (scrape_subpages_loop _ _ _ _ _ _ _ _) as [[a|e] t2];
        [|discriminate].
      simpl in H2. subst t2. injection H as <- _. eauto.
    - exists []. unfold ret in *. injection H as <- _.
      now rewrite app_nil_r. }
  destruct Hs as (e2 & Hs & P2). rewrite Hs in H. injection H as <-.
  exists (e1 ++ e2)%list.
  assert (HP : forallb P (e1 ++ e2)%list = true) by now rewrite forallb_app, P1, P2.
  split; [now rewrite <- !app_assoc|]. split; [exact HP|].
  rewrite <- !app_assoc, !last_json_app. split.
  - intros ->. simpl. now rewrite (last_json_none e2 P2), (last_json_none e1 P1).
  - intros Hne. destruct all_people; [congruence | reflexivity].
Qed.

Lemma main_persists_result_witness :
  exists evs,
    snd (main string false Samples.site Samples.no_browser true false true [])
    = ([] ++ evs
       ++ Runs.result_events
            [Samples.jane;
             {| name := "A Lee"; honorific := "Dr"; profile_url := "N/A";
                title := "N/A"; category := "Students" |}])%list
    /\ forallb (fun e => negb (Runs.is_result_write e)) evs = true.
Proof.
  destruct (main_persists_result string false Samples.site Samples.no_browser
              true false true []
              (snd (main string false Samples.site Samples.no_browser
                      true false true []))
              [Samples.jane;
               {| name := "A Lee"; honorific := "Dr"; profile_url := "N/A";
                  title := "N/A"; category := "Students" |}] eq_refl)
    as (evs & H1 & H2 & _).
  exists evs. split; assumption.
Defined.

(** X15: every record a run returns is well formed: its category is not
    empty, its name has no whitespace at either end, its honorific is empty
    or a listed prefix, and its profile URL is "N/A" or begins with
    "http". *)
Theorem main_records_well_formed (failure : Type) (SELENIUM_AVAILABLE : bool)
  (requests_get browser_get : trace -> string -> failure + soup)
  (use_selenium save_html scrape_subpages : bool) (t t' : trace)
  (all_people : list person) :
  main failure SELENIUM_AVAILABLE requests_get browser_get
    use_selenium save_html scrape_subpages t = (Ok all_people, t') ->
  Forall Runs.well_formed all_people.
Proof.
  rewrite main_unfold.
  destruct (fetch_main_page _ _ _ _ _ _ _) as [[page|e] t1]; [|discriminate].
  destruct scrape_subpages.
  - destruct (scrape_subpages_loop _ _ _ _ _ _ _ _) as [[a|e] t2] eqn:E;
      [|discriminate].
    intros [= <- _].
    eapply scrape_subpages_loop_Forall; [|apply extract_people_data_well_formed|exact E].
    intros p dc. apply extract_people_data_well_formed.
  - unfold ret. intros [= <- _]. apply extract_people_data_well_formed.
Qed.

Lemma main_records_well_formed_witness :
  Forall Runs.well_formed
    [Samples.jane;
     {| name := "A Lee"; honorific := "Dr"; profile_url := "N/A";
        title := "N/A"; category := "Students" |}].
Proof.
  apply (main_records_well_formed string false Samples.site Samples.no_browser
           true false true []
           (snd (main string false Samples.site Samples.no_browser
                   true false true []))).
  reflexivity.
Defined.

Section PlainCrawl.

Variable failure : Type.
Variable site : string -> failure + soup.
Variable browser_get : trace -> string -> failure + soup.

Lemma fetch_page_plain (url : string) (t : trace) :
  fetch_page failure false (fun _ => site) browser_get url false t
  = (of_result failure (site url), (t ++ [HttpGet url])%list).
Proof.
  unfold fetch_page, fetch_page_requests, try_except, raise.
  now destruct (site url).
Qed.

Lemma scrape_subpages_loop_plain (links : list (string * string)) :
  forall (all_people : list person) (t : trace),
    scrape_subpages_loop failure false (fun _ => site) browser_get false links
      all_people t
    = (Ok (all_people ++ flat_map (Runs.subpage_records failure site) links)%list,
       (t ++ flat_map (Runs.subpage_events failure site) links)%list).
Proof.
  induction links as [|[nm url] links IH]; intros all_people t.
  - simpl. unfold ret. now rewrite !app_nil_r.
  - cbn [scrape_subpages_loop flat_map]. unfold bind.
    unfold Runs.subpage_records at 1, Runs.subpage_events at 1. cbn [fst snd].
    pose proof (fetch_page_plain url t) as Hf.
    destruct (site url) as [e|page]; simpl in Hf.
    + erewrite scrape_category_failure by exact Hf.
      rewrite IH. cbn [app]. now rewrite <- app_assoc.
    + erewrite scrape_category_success by exact Hf.
      rewrite IH. now rewrite <- !app_assoc.
Qed.

End PlainCrawl.

(** X16: the whole run in closed form, for a site that answers every
    request for a URL alike and without Selenium installed.  The result is
    the records of the landing page followed, link by link in page order,
    by the records of each category page that could be fetched, extracted
    with the link's name as default category; there is one GET per page, a
    pause after each page fetched and none after a failed one, and the
    result files are written last. *)
Theorem main_plain_crawl (failure : Type) (site : string -> failure + soup)
  (browser_get : trace -> string -> failure + soup) (page : soup)
  (use_selenium save_html scrape_subpages : bool) (t : trace) :
  site base_url = inr page ->
  main failure false (fun _ => site) browser_get
    use_selenium save_html scrape_subpages t
  = (Ok (extract_people_data page None
         ++ flat_map (Runs.subpage_records failure site)
              (if scrape_subpages
               then find_category_links page "https://cis.unimelb.edu.au"
               else []))%list,
     (t ++ [HttpGet base_url]
        ++ (if save_html then [WriteHtml "page_source.html" page] else [])
        ++ flat_map (Runs.subpage_events failure site)
             (if scrape_subpages
              then find_category_links page "https://cis.unimelb.edu.au"
              else [])
        ++ Runs.result_events
             (extract_people_data page None
              ++ flat_map (Runs.subpage_records failure site)
                   (if scrape_subpages
                    then find_category_links page "https://cis.unimelb.edu.au"
                    else [])))%list).
Proof.
  intros Hpage. rewrite main_unfold.
  assert (Hm : fetch_main_page failure false (fun _ => site) browser_get
                 use_selenium save_html t
               = (Ok page,
                  (t ++ [HttpGet base_url]
                     ++ (if save_html then [WriteHtml "page_source.html" page]
                         else []))%list)).
  { unfold fetch_main_page, try_except, bind.
    replace (effective_selenium false use_selenium) with false
      by now destruct use_selenium.
    rewrite fetch_page_plain, Hpage. simpl.
    destruct save_html; unfold emit, ret; simpl;
      now rewrite <- ?app_assoc, ?app_nil_r. }
  rewrite Hm.
  replace (effective_selenium false use_selenium) with false
    by now destruct use_selenium.
  destruct scrape_subpages.
  - rewrite scrape_subpages_loop_plain. now rewrite <- !app_assoc.
  - unfold ret. cbn [flat_map]. now rewrite !app_nil_r, <- !app_assoc.
Qed.

Lemma main_plain_crawl_witness :
  main string false (fun _ => Samples.site []) Samples.no_browser true false true []
  = (Ok [Samples.jane;
         {| name := "A Lee"; honorific := "Dr"; profile_url := "N/A";
            title := "N/A"; category := "Students" |}],
     [HttpGet "https://cis.unimelb.edu.au/people";
      HttpGet "https://cis.unimelb.edu.au/people/fellows";
      HttpGet "https://cis.unimelb.edu.au/people/students"; Sleep 1;
      WriteJson "people_data.json"
        (save_to_json
           [Samples.jane;
            {| name := "A Lee"; honorific := "Dr"; profile_url := "N/A";
               title := "N/A"; category := "Students" |}]);
      WriteCsv "people_data.csv"
        [Samples.jane;
         {| name := "A Lee"; honorific := "Dr"; profile_url := "N/A";
            title := "N/A"; category := "Students" |}]]).
Proof.
  exact (main_plain_crawl string (Samples.site []) Samples.no_browser
           Samples.landing true false true [] eq_refl).
Defined.

(** ** The CSV file *)

Module CsvFacts.
Import Csv PyStrFacts.

Lemma special_false (c : ascii) :
  special c = false ->
  Ascii.eqb c "," = false /\ Ascii.eqb c quote = false
  /\ Ascii.eqb c cr = false /\ Ascii.eqb c lf = false.
Proof.
  unfold special. intros H.
  apply orb_false_iff in H as [H H4]. apply orb_false_iff in H as [H H3].
  apply orb_false_iff in H as [H1 H2]. auto.
Qed.

(** An unquoted field is read character by character. *)
Lemma read_unquoted (f rest acc : string) (row : list string)
  (rows : list (list string)) :
  needs_quoting f = false ->
  read (f ++ rest) InField acc row rows = read rest InField (acc ++ f) row rows.
Proof.
  revert acc. induction f as [|c f IH]; intros acc H.
  - now rewrite append_empty_r.
  - cbn [needs_quoting] in H. apply orb_false_iff in H as [Hc Hf].
    apply special_false in Hc as (H1 & H2 & H3 & H4).
    cbn [append read]. rewrite H1, H3, H2, H4. cbn [orb].
    rewrite (IH _ Hf). unfold snoc. now rewrite append_assoc.
Qed.

(** The body of a quoted field is read up to its closing quote, a doubled
    quote giving one quote. *)
Lemma read_quoted (f rest acc : string) (row : list string)
  (rows : list (list string)) :
  read (double_quotes f ++ String quote rest) InQuoted acc row rows
  = read rest QuoteSeen (acc ++ f) row rows.
Proof.
  revert acc. induction f as [|c f IH]; intros acc.
  - rewrite append_empty_r. reflexivity.
  - cbn [double_quotes]. destruct (Ascii.eqb c quote) eqn:E.
    + apply Ascii.eqb_eq in E as ->. cbn [append read].
      change (Ascii.eqb quote quote) with true. cbv iota.
      rewrite IH. unfold snoc. now rewrite append_assoc.
    + cbn [append read]. rewrite E. rewrite IH. unfold snoc.
      now rewrite append_assoc.
Qed.

Lemma read_field (st : state) (f : string) (d : ascii) (r : string)
  (row : list string) (rows : list (list string)) :
  st = RowStart \/ st = FieldStart -> d = ","%char \/ d = cr ->
  read (encode_field f ++ String d r) st "" row rows = after_field d r f row rows.
Proof.
  intros Hst Hd. unfold encode_field, after_field.
  destruct (needs_quoting f) eqn:Hq.
  - cbn [append]. rewrite append_assoc. cbn [append].
    assert (Hs : read (String quote (double_quotes f ++ String quote (String d r)))
                   st "" row rows
                 = read (double_quotes f ++ String quote (String d r))
                     InQuoted "" row rows)
      by (destruct Hst as [-> | ->]; reflexivity).
    rewrite Hs, read_quoted. cbn [append].
    destruct Hd as [-> | ->]; reflexivity.
  - destruct f as [|c f].
    + cbn [append]. destruct Hst as [-> | ->], Hd as [-> | ->]; reflexivity.
    + cbn [needs_quoting] in Hq. apply orb_false_iff in Hq as [Hc Hf].
      apply special_false in Hc as (H1 & H2 & H3 & H4).
      assert (Hs : read (String c f ++ String d r) st "" row rows
                   = read (f ++ String d r) InField (String c "") row rows).
      { cbn [append]. destruct Hst as [-> | ->]; cbn [read];
          now rewrite H2, H1, H3, H4. }
      rewrite Hs, (read_unquoted _ _ _ _ _ Hf). cbn [append].
      destruct Hd as [-> | ->]; reflexivity.
Qed.

Lemma read_fields (fields : list string) :
  forall (st : state) (row : list string) (rows : list (list string)) (rest : string),
    fields <> [] -> st = RowStart \/ st = FieldStart ->
    read (PyStr.join "," (map encode_field fields) ++ lineterminator ++ rest)
      st "" row rows
    = read rest RowStart "" [] (rows ++ [(row ++ fields)%list])%list.
Proof.
  induction fields as [|f fields IH]; intros st row rows rest Hne Hst; [congruence|].
  destruct fields as [|f' fields'].
  - cbn [map PyStr.join]. unfold lineterminator. cbn [append].
    rewrite (read_field st f cr) by auto. reflexivity.
  - change (PyStr.join "," (map encode_field (f :: f' :: fields')))
      with (encode_field f ++ "," ++ PyStr.join "," (map encode_field (f' :: fields'))).
    rewrite !append_assoc. cbn [append].
    rewrite (read_field st f ",") by auto. unfold after_field. cbn [Ascii.eqb Bool.eqb].
    cbv iota. rewrite IH by (auto; discriminate). now rewrite <- app_assoc.
Qed.

Lemma read_row (f1 f2 : string) (fields : list string) (rows : list (list string))
  (rest : string) :
  read (encode_row (f1 :: f2 :: fields) ++ rest) RowStart "" [] rows
  = read rest RowStart "" [] (rows ++ [f1 :: f2 :: fields])%list.
Proof.
  assert (He : encode_row (f1 :: f2 :: fields)
               = PyStr.join "," (map encode_field (f1 :: f2 :: fields)) ++ lineterminator)
    by now destruct f1.
  rewrite He, append_assoc, read_fields by (auto; discriminate). reflexivity.
Qed.

(** The values of a record in column order. *)
Lemma dict_to_list_person (p : person) :
  dict_to_list (to_dict p) = [name p; honorific p; title p; category p; profile_url p].
Proof. reflexivity. Qed.

Lemma read_people (data : list person) :
  forall rows,
    read (PyStr.join "" (map (fun p => encode_row (dict_to_list (to_dict p))) data))
      RowStart "" [] rows
    = Some (rows ++ map (fun p => dict_to_list (to_dict p)) data)%list.
Proof.
  induction data as [|p data IH]; intros rows; [simpl; now rewrite app_nil_r|].
  destruct data as [|q data'].
  - cbn [map PyStr.join]. rewrite <- (append_empty_r (encode_row _)).
    rewrite dict_to_list_person, read_row. reflexivity.
  - change (PyStr.join "" (map (fun p => encode_row (dict_to_list (to_dict p)))
                             (p :: q :: data')))
      with (encode_row (dict_to_list (to_dict p))
            ++ PyStr.join "" (map (fun p => encode_row (dict_to_list (to_dict p)))
                                (q :: data'))).
    rewrite (dict_to_list_person p), read_row, IH, <- app_assoc. reflexivity.
Qed.

Lemma read_rows_save_to_csv (data : list person) (text : string) :
  save_to_csv data = Some text ->
  read_rows text = Some (fieldnames :: map (fun p => dict_to_list (to_dict p)) data).
Proof.
  destruct data as [|p data]; [discriminate|]. intros H.
  assert (Ht : text
               = encode_row fieldnames
                 ++ PyStr.join "" (map (fun p => encode_row (dict_to_list (to_dict p)))
                                     (p :: data)))
    by (unfold save_to_csv in H; congruence).
  rewrite Ht. unfold read_rows, fieldnames. rewrite read_row, read_people.
  reflexivity.
Qed.

Lemma dict_to_list_injective (p q : person) :
  dict_to_list (to_dict p) = dict_to_list (to_dict q) -> p = q.
Proof.
  rewrite !dict_to_list_person. destruct p, q. simpl.
  intros [= -> -> -> -> ->]. reflexivity.
Qed.

Lemma map_injective {A B : Type} (f : A -> B) (l1 l2 : list A) :
  (forall a b, f a = f b -> a = b) -> map f l1 = map f l2 -> l1 = l2.
Proof.
  intros Hf. revert l2. induction l1 as [|a l1 IH]; intros [|b l2]; simpl;
    try discriminate; [reflexivity|].
  intros [= H1 H2]. f_equal; auto.
Qed.

End CsvFacts.

(** X17: the CSV file is written only for a non-empty list of records; it
    starts with the header row in the fixed column order, a CSV reader
    gets back from it one row per record with the five values in that
    order, whatever commas, quotes and line breaks they contain, and two
    different lists of records never give the same file. *)
Theorem save_to_csv_faithful (data : list person) :
  (save_to_csv data = None <-> data = [])
  /\ (forall text,
        save_to_csv data = Some text ->
        Csv.read_rows text
        = Some (["name"; "honorific"; "title"; "category"; "profile_url"]
                :: map (fun p => [name p; honorific p; title p; category p;
                                  profile_url p]) data))
  /\ (forall data', save_to_csv data = save_to_csv data' -> data = data').
Proof.
  split; [|split].
  - destruct data; simpl; split; congruence.
  - intros text H. now apply CsvFacts.read_rows_save_to_csv.
  - intros data' H.
    destruct (save_to_csv data) as [text|] eqn:E.
    + pose proof (CsvFacts.read_rows_save_to_csv _ _ E) as H1.
      symmetry in H.
      pose proof (CsvFacts.read_rows_save_to_csv _ _ H) as H2.
      rewrite H1 in H2. injection H2 as H2.
      eapply CsvFacts.map_injective; [|exact H2].
      apply CsvFacts.dict_to_list_injective.
    + destruct data; [|discriminate]. destruct data'; [reflexivity | discriminate].
Qed.

(** ** Names on the page and in the dashboard *)

Module ShapeFacts.
Import PyStr Notions Shapes PyStrFacts StripFacts.

Lemma single_spaced_word_app (w x : string) :
  no_space w = true -> single_spaced (w ++ x) = single_spaced x.
Proof.
  induction w as [|c w IH]; intros H; [reflexivity|].
  cbn [no_space] in H. apply andb_prop in H as [Hc Hw].
  apply negb_true_iff in Hc. cbn [append single_spaced]. rewrite Hc.
  now apply IH.
Qed.

Lemma starts_solid_join (w : string) (ws : list string) :
  word w -> starts_solid (join " " (w :: ws)) = true.
Proof.
  intros [Hne Hns]. destruct w as [|c w]; [congruence|].
  cbn [no_space] in Hns. apply andb_prop in Hns as [Hc _].
  destruct ws; exact Hc.
Qed.

Lemma single_spaced_join (ws : list string) :
  Forall word ws -> single_spaced (join " " ws) = true.
Proof.
  induction 1 as [|w ws [Hne Hns] Hws IH]; [reflexivity|].
  destruct ws as [|w' ws'].
  - cbn [join]. rewrite <- (append_empty_r w). now rewrite single_spaced_word_app.
  - change (join " " (w :: w' :: ws')) with (w ++ " " ++ join " " (w' :: ws')).
    rewrite single_spaced_word_app by assumption.
    cbn [append single_spaced]. rewrite IH.
    inversion Hws as [|? ? Hw' _]; subst.
    now rewrite (starts_solid_join w' ws' Hw').
Qed.

Lemma single_spaced_suffix (a b : string) :
  single_spaced (a ++ b) = true -> single_spaced b = true.
Proof.
  induction a as [|c a IH]; [auto|].
  cbn [append single_spaced]. intros H.
  apply andb_prop in H as [_ H]. auto.
Qed.

Lemma append_inj (a x y : string) : a ++ x = a ++ y -> x = y.
Proof. induction a as [|c a IH]; simpl; [auto | intros [= H]; auto]. Qed.

(** In a normalized name, what follows a prefix and its space is itself
    stripped. *)
Lemma rest_stripped (a rest : string) :
  single_spaced ((a ++ " ") ++ rest) = true ->
  strip ((a ++ " ") ++ rest) = (a ++ " ") ++ rest ->
  strip rest = rest.
Proof.
  intros Hs Hf.
  rewrite append_assoc in Hs. apply single_spaced_suffix in Hs.
  cbn [append single_spaced] in Hs.
  apply andb_prop in Hs as [Hs _]. change (is_space " ") with true in Hs.
  cbv iota in Hs. apply andb_prop in Hs as [_ Hs].
  destruct rest as [|c r]; [discriminate|].
  cbn [starts_solid] in Hs. apply negb_true_iff in Hs.
  assert (Hl : lstrip (String c r) = String c r) by (cbn [lstrip]; now rewrite Hs).
  assert (Hne : (a ++ " ") ++ String c r <> "")
    by (apply append_nonempty_r; discriminate).
  destruct (strip_fixed_inv _ Hf Hne) as (_ & Hr & _).
  assert (Hnb : rstrip (String c r) <> "").
  { intros H. apply rstrip_empty_iff in H. cbn [blank] in H. rewrite Hs in H.
    discriminate. }
  rewrite rstrip_app in Hr by assumption. apply append_inj in Hr.
  unfold strip. now rewrite Hl.
Qed.

Lemma split_word_app (w x : string) :
  w <> "" -> no_space w = true ->
  x = "" \/ (exists d y, x = String d y /\ is_space d = true) ->
  split (w ++ x) = w :: split x.
Proof.
  induction w as [|c w IH]; intros Hne Hns Hx; [congruence|].
  cbn [no_space] in Hns. apply andb_prop in Hns as [Hc Hw].
  apply negb_true_iff in Hc. cbn [append split]. rewrite Hc.
  destruct w as [|c' w'].
  - cbn [append]. destruct Hx as [-> | (d & y & -> & Hd)]; [reflexivity|].
    now rewrite Hd.
  - cbn [append]. cbn [no_space] in Hw.
    assert (Hc' : is_space c' = false)
      by (apply andb_prop in Hw as [Hw _]; now apply negb_true_iff in Hw).
    rewrite Hc'.
    change (String c' (w' ++ x)) with (String c' w' ++ x).
    rewrite IH by (auto; discriminate). reflexivity.
Qed.

(** Normalizing twice is normalizing once. *)
Lemma split_join_words (ws : list string) :
  Forall word ws -> split (join " " ws) = ws.
Proof.
  induction 1 as [|w ws [Hne Hns] Hws IH]; [reflexivity|].
  destruct ws as [|w' ws'].
  - cbn [join]. rewrite <- (append_empty_r w) at 1.
    rewrite split_word_app by auto. reflexivity.
  - change (join " " (w :: w' :: ws')) with (w ++ " " ++ join " " (w' :: ws')).
    rewrite split_word_app; auto.
    + change (" " ++ join " " (w' :: ws')) with (String " " (join " " (w' :: ws'))).
      cbn [split]. change (is_space " ") with true. cbv iota. now rewrite IH.
    + right. eexists _, _. split; reflexivity.
Qed.

Lemma normalize_idem (t : string) :
  join " " (split (join " " (split t))) = join " " (split t).
Proof. now rewrite (split_join_words _ (split_words t)). Qed.

(** The dashboard puts together again what the splitter took apart. *)
Lemma display_name_parse (p : person) (f : string) :
  join " " (split f) = f ->
  (name p, honorific p) = parse_name_and_honorific f ->
  App.display_name p = f.
Proof.
  intros Hn Hp.
  assert (Hs : strip f = f) by (rewrite <- Hn; apply strip_normalized).
  assert (Hss : single_spaced f = true)
    by (rewrite <- Hn; apply single_spaced_join, split_words).
  unfold parse_name_and_honorific in Hp. rewrite Hs in Hp.
  unfold App.display_name.
  destruct (match_honorific honorifics f) as [[nm h]|] eqn:E.
  - injection Hp as Hnm Hh. rewrite Hnm, Hh.
    pose proof (match_honorific_in _ _ _ _ E) as Hin.
    apply match_honorific_some in E as [Hpre ->].
    destruct (prefix_split _ _ Hpre) as [rest Hf].
    assert (Hr : strip rest = rest)
      by (apply (rest_stripped h); rewrite <- Hf; assumption).
    rewrite Hf at 1. rewrite append_assoc, slice_from_app.
    change (" " ++ rest) with (String " " rest). rewrite strip_after_space, Hr.
    assert (Ht : truthy h = true).
    { simpl in Hin. repeat (destruct Hin as [<-|Hin]; [reflexivity|]). destruct Hin. }
    rewrite Ht. change (h ++ String " " rest) with (h ++ " " ++ rest).
    rewrite <- append_assoc, <- Hf. exact Hs.
  - injection Hp as Hnm Hh. now rewrite Hh, Hnm.
Qed.

End ShapeFacts.

(** C2: for every recognized prefix [p] and every non-empty base name [n]
    that does not itself start with a recognized prefix followed by a
    space, the splitter sends [p + " " + n], a whitespace-normalized display
    name as its callers pass it, to [(n, p)]; the compound prefixes
    "Assoc Prof" and "A/Prof" come back whole, never as "Prof". *)
Theorem parse_name_and_honorific_prefixed (p n : string) :
  In p ["Assoc Prof"; "A/Prof"; "Prof"; "Dr"; "Mrs"; "Ms"; "Mr"; "Miss"] ->
  n <> "" ->
  (forall q, In q honorifics -> PyStr.startswith n (q ++ " ") = false) ->
  PyStr.join " " (PyStr.split (p ++ " " ++ n)) = p ++ " " ++ n ->
  parse_name_and_honorific (p ++ " " ++ n) = (n, p)
  /\ (p = "Assoc Prof" \/ p = "A/Prof" ->
      snd (parse_name_and_honorific (p ++ " " ++ n)) <> "Prof").
Proof.
  intros Hp Hn _ Hnorm.
  assert (Hp' : In p honorifics).
  { simpl in Hp |- *. intuition. }
  assert (Hs : PyStr.strip n = n).
  { apply (ShapeFacts.rest_stripped p); rewrite PyStrFacts.append_assoc, <- Hnorm.
    - apply ShapeFacts.single_spaced_join, PyStrFacts.split_words.
    - apply PyStrFacts.strip_normalized. }
  rewrite (parse_prefixed_stripped p n Hp' Hn Hs). split; [reflexivity|].
  simpl. intros [-> | ->]; discriminate.
Qed.

Lemma parse_name_and_honorific_prefixed_witness :
  parse_name_and_honorific ("Assoc Prof" ++ " " ++ "Jane Doe") = ("Jane Doe", "Assoc Prof")
  /\ ("Assoc Prof" = "Assoc Prof" \/ "Assoc Prof" = "A/Prof" ->
      snd (parse_name_and_honorific ("Assoc Prof" ++ " " ++ "Jane Doe")) <> "Prof").
Proof.
  apply (parse_name_and_honorific_prefixed "Assoc Prof" "Jane Doe").
  - simpl. auto.
  - discriminate.
  - intros q Hq. simpl in Hq.
    repeat (destruct Hq as [<-|Hq]; [reflexivity|]). destruct Hq.
  - reflexivity.
Defined.

(** X18: for every card whose heading has a link, the name the dashboard
    shows (honorific and name put together) is the whitespace-normalized
    text of that link: splitting off the honorific and joining it again
    loses nothing. *)
Theorem display_name_is_link_text (s : soup) (dc : option string) :
  Forall2
    (fun card p =>
       forall header name_link,
         Soup.find (Soup.here card) is_card_header = Some header ->
         Soup.find header (Soup.is_tag "a") = Some name_link ->
         App.display_name p
         = PyStr.join " " (PyStr.split (Soup.get_text name_link)))
    (filter Notions.has_header (Soup.find_all s is_card))
    (extract_people_data s dc).
Proof.
  apply extract_people_data_Forall2. intros c cat p Hp header name_link Hh Hl.
  unfold card_person in Hp. rewrite Hh, Hl in Hp.
  apply ShapeFacts.display_name_parse.
  - apply ShapeFacts.normalize_idem.
  - destruct (parse_name_and_honorific _) as [nm h]. now injection Hp as <-.
Qed.

(** ** The select boxes and filters of the dashboard *)

Module AppFacts.
Import App.

Lemma In_insert_sorted (x y : string) (l : list string) :
  In y (insert_sorted x l) <-> y = x \/ In y l.
Proof.
  induction l as [|z l IH]; simpl; [intuition|].
  destruct (String.leb x z); simpl; [intuition|]. rewrite IH. intuition.
Qed.

Lemma In_sorted (y : string) (l : list string) : In y (sorted l) <-> In y l.
Proof.
  induction l as [|x l IH]; simpl; [tauto|].
  rewrite In_insert_sorted, IH. intuition.
Qed.

Lemma In_unique (y : string) (l : list string) : In y (unique l) <-> In y l.
Proof.
  induction l as [|x l IH]; simpl; [tauto|].
  rewrite filter_In, IH, negb_true_iff, String.eqb_neq.
  destruct (string_dec x y) as [->|Hne]; intuition.
Qed.

Lemma NoDup_unique (l : list string) : NoDup (unique l).
Proof.
  induction l as [|x l IH]; simpl; constructor.
  - rewrite filter_In, String.eqb_refl. intros [_ H]. discriminate.
  - now apply NoDup_filter.
Qed.

Lemma NoDup_insert_sorted (x : string) (l : list string) :
  ~ In x l -> NoDup l -> NoDup (insert_sorted x l).
Proof.
  induction l as [|z l IH]; simpl; intros Hx Hl; [repeat constructor; auto|].
  destruct (String.leb x z); [constructor; [simpl; tauto | assumption]|].
  inversion Hl as [|? ? Hz Hl']; subst. constructor.
  - rewrite In_insert_sorted. intros [-> | H]; tauto.
  - apply IH; tauto.
Qed.

Lemma NoDup_sorted (l : list string) : NoDup l -> NoDup (sorted l).
Proof.
  induction 1 as [|x l Hx Hl IH]; simpl; [constructor|].
  apply NoDup_insert_sorted; [now rewrite In_sorted | assumption].
Qed.

Lemma is_sorted_insert (x : string) (l : list string) :
  is_sorted l = true -> is_sorted (insert_sorted x l) = true.
Proof.
  induction l as [|z l IH]; intros Hl; [reflexivity|].
  cbn [insert_sorted]. destruct (String.leb x z) eqn:E.
  - cbn [is_sorted]. cbn [is_sorted] in Hl. now rewrite E.
  - assert (Hzx : String.leb z x = true)
      by (destruct (String.leb_total x z) as [H|H]; [congruence | exact H]).
    assert (Hl' : is_sorted l = true).
    { cbn [is_sorted] in Hl. destruct l; [reflexivity|].
      now apply andb_prop in Hl as [_ Hl]. }
    specialize (IH Hl'). cbn [is_sorted].
    destruct l as [|w l'].
    + cbn [insert_sorted]. now rewrite Hzx.
    + cbn [insert_sorted] in *. cbn [is_sorted] in Hl.
      apply andb_prop in Hl as [Hzw _].
      destruct (String.leb x w); [now rewrite Hzx, IH | now rewrite Hzw, IH].
Qed.

Lemma is_sorted_sorted (l : list string) : is_sorted (sorted l) = true.
Proof.
  induction l as [|x l IH]; [reflexivity|]. now apply is_sorted_insert.
Qed.

End AppFacts.

(** X19: the category select box offers "All" and then every category of
    the data exactly once, in ascending order. *)
Theorem category_options_complete (df : list person) :
  exists options,
    App.category_options df = "All" :: options
    /\ App.is_sorted options = true
    /\ NoDup options
    /\ (forall c, In c options <-> exists row, In row df /\ category row = c).
Proof.
  exists (App.sorted (App.unique (map category df))).
  split; [reflexivity|]. split; [apply AppFacts.is_sorted_sorted|].
  split; [apply AppFacts.NoDup_sorted, AppFacts.NoDup_unique|].
  intros c. rewrite AppFacts.In_sorted, AppFacts.In_unique, in_map_iff.
  split; intros (row & H1 & H2); exists row; auto.
Qed.

(** X20: picking a category offered by the select box, other than "All",
    with no honorific picked and no search term, shows the rows of that
    category and no others, in their order, and at least one row. *)
Theorem category_filter_selects (str_contains : string -> string -> bool)
  (df : list person) (selected_category : string) :
  In selected_category (App.category_options df) ->
  selected_category <> "All" ->
  App.apply_filters str_contains df selected_category "All" ""
  = filter (fun row => String.eqb (category row) selected_category) df
  /\ App.apply_filters str_contains df selected_category "All" "" <> []
  /\ (forall row, In row (App.apply_filters str_contains df selected_category "All" "")
                  <-> In row df /\ category row = selected_category).
Proof.
  intros Hin Hne.
  assert (He : App.apply_filters str_contains df selected_category "All" ""
               = filter (fun row => String.eqb (category row) selected_category) df).
  { unfold App.apply_filters.
    apply String.eqb_neq in Hne. rewrite Hne. reflexivity. }
  rewrite He. split; [reflexivity|].
  assert (Hiff : forall row,
             In row (filter (fun row => String.eqb (category row) selected_category) df)
             <-> In row df /\ category row = selected_category)
    by (intros row; now rewrite filter_In, String.eqb_eq).
  split; [|exact Hiff].
  destruct Hin as [H|Hin]; [congruence|].
  apply AppFacts.In_sorted, AppFacts.In_unique, in_map_iff in Hin
    as (row & Hc & Hrow).
  intros Hnil. assert (H : In row []) by (rewrite <- Hnil; apply Hiff; auto).
  destruct H.
Qed.

Lemma category_filter_selects_witness :
  App.apply_filters (fun _ _ => true)
    [Samples.jane;
     {| name := "A Lee"; honorific := "Dr"; profile_url := "N/A";
        title := "N/A"; category := "Students" |}] "Students" "All" ""
  <> [].
Proof.
  apply (category_filter_selects (fun _ _ => true)
           [Samples.jane;
            {| name := "A Lee"; honorific := "Dr"; profile_url := "N/A";
               title := "N/A"; category := "Students" |}] "Students").
  - simpl. auto.
  - discriminate.
Defined.

(** X21: for data from the extractor, the honorific select box offers only
    "All" and prefixes of the splitter's list, never the empty
    honorific. *)
Theorem honorific_options_of_extracted (s : soup) (dc : option string) (h : string) :
  In h (App.honorific_options (extract_people_data s dc)) ->
  h <> "" /\ (h = "All" \/ In h honorifics).
Proof.
  intros [<-|Hin]; [split; [discriminate | now left]|].
  apply AppFacts.In_sorted, filter_In in Hin as [Hin Ht].
  apply AppFacts.In_unique, in_map_iff in Hin as (p & <- & Hp).
  split; [now apply StripFacts.truthy_nonempty|]. right.
  pose proof (extract_people_data_Forall
                (fun p => PyStr.strip (name p) = name p
                          /\ (honorific p = "" \/ In (honorific p) honorifics))
                s dc (fun c cat q Hq => card_person_name_shape _ _ _ Hq)) as H.
  rewrite Forall_forall in H. destruct (H p Hp) as [_ [He|Hl]]; [|exact Hl].
  rewrite He in Ht. discriminate.
Qed.

Lemma honorific_options_of_extracted_witness :
  "Prof" <> "" /\ ("Prof" = "All" \/ In "Prof" honorifics).
Proof.
  apply (honorific_options_of_extracted Samples.landing None "Prof").
  simpl. auto.
Defined.

(** X22: in the table, the profile cell of a record from the extractor is
    the dash placeholder exactly when the card's heading has no link;
    otherwise it is a link to the record's URL. *)
Theorem format_url_of_extracted (s : soup) (dc : option string) :
  Forall2
    (fun card p =>
       exists header,
         Soup.find (Soup.here card) is_card_header = Some header
         /\ (App.format_url (profile_url p) = App.Placeholder
             <-> Soup.find header (Soup.is_tag "a") = None)
         /\ (Soup.find header (Soup.is_tag "a") <> None ->
             App.format_url (profile_url p) = App.ViewProfile (profile_url p)))
    (filter Notions.has_header (Soup.find_all s is_card))
    (extract_people_data s dc).
Proof.
  apply extract_people_data_Forall2. intros c cat p Hp.
  destruct (card_person_profile_url _ _ _ Hp) as [_ Hne].
  unfold card_person in Hp.
  destruct (Soup.find (Soup.here c) is_card_header) as [header|]; [|discriminate].
  exists header. split; [reflexivity|].
  assert (Hna : profile_url p = "N/A" <-> Soup.find header (Soup.is_tag "a") = None).
  { destruct (Soup.find header (Soup.is_tag "a")) as [name_link|];
      destruct (parse_name_and_honorific _); injection Hp as <-; simpl.
    - split; [|discriminate]. intros H. now apply profile_url_of_not_sentinel in H.
    - tauto. }
  unfold App.format_url.
  assert (Ht : PyStr.truthy (profile_url p) = true)
    by now apply StripFacts.truthy_nonempty.
  rewrite Ht. cbn [andb].
  destruct (String.eqb_spec (profile_url p) "N/A") as [E|E]; cbn [negb].
  - split; [split; [intros _; now apply Hna | reflexivity]|].
    intros H. exfalso. apply H. now apply Hna.
  - split; [split; [discriminate | intros H; exfalso; apply E; now apply Hna]|].
    reflexivity.
Qed.
